(** * coderluojz/utils: the axios wrapper [HttpClient] and its stream consumer

    A shallow embedding of
      - src/src/request.ts    (the earlier variant of [HttpClient]),
      - src/utils/request.ts  (the later variant, with [enableCodeCheck]
                               and [stream]),
      - the type declarations of types/request.ts.

    Conventions of the embedding.
      - A JavaScript string is a Rocq [string] holding its UTF-8 text, so the
        literals of the source appear verbatim.
      - A JavaScript number that the client inspects (business code, HTTP
        status) is an integer, a [Z].
      - An optional property is an [option]; [None] is "absent/undefined".
      - A registered callback of type [... => void] is a boolean "is it
        registered" together with an entry in the trace of calls that the
        function returns; callbacks are assumed to return normally.
      - A promise is its settlement: [Resolve v] or [Reject e]. *)

From Stdlib Require Import String Ascii List ZArith Lia Bool DecimalString.
Import ListNotations.
Open Scope string_scope.
Set Warnings "-register-all,-notation-for-abbreviation,-inconsistent-scopes".

(** ** JavaScript primitives *)

Module JS.

(** [String(n)] / template interpolation of an integer number. *)
Definition Number_toString (n : Z) : string :=
  NilZero.string_of_int (Z.to_int n).

(** Interpolation [`${x}`] of a possibly undefined string. *)
Definition template (x : option string) : string :=
  match x with
  | Some s => s
  | None => "undefined"
  end.

(** ToBoolean on a string: only the empty string is falsy. *)
Definition truthy_string (s : string) : bool :=
  negb (s =? "").

(** ToBoolean on an optional boolean property. *)
Definition truthy_flag (b : option bool) : bool :=
  match b with
  | Some true => true
  | _ => false
  end.

(** [a === n] for an optional number [a] and a number [n]. *)
Definition strict_eq (a : option Z) (n : Z) : bool :=
  match a with
  | Some x => (x =? n)%Z
  | None => false
  end.

(** [s || d] on strings. *)
Definition or_string (s d : string) : string :=
  if truthy_string s then s else d.

End JS.

(** JSON values, as [JSON.parse] and the response decoder of axios produce
    them.  Numbers are restricted to integers; an object keeps its members in
    source order. *)
Inductive json : Type :=
| JNull
| JBool (b : bool)
| JNum (n : Z)
| JStr (s : string)
| JArr (items : list json)
| JObj (members : list (string * json)).

(** A promise, by the way it settles. *)
Inductive Settled (A E : Type) : Type :=
| Resolve (value : A)
| Reject (reason : E).
Arguments Resolve {A E} value.
Arguments Reject {A E} reason.

(** ** types/request.ts *)

(** [RequestConfig = AxiosRequestConfig & CustomRequestConfig]; of the axios
    part only [url] is read by the client. *)
Record RequestConfig : Type := mkConfig {
  url : option string;
  showGlobalMessage : option bool;
  successCode : option Z;
  enableCodeCheck : option bool
}.

(** Object spread [{ ...d, ...c }] restricted to the custom properties: an own
    property of [c] wins. *)
Definition spread {A : Type} (d c : option A) : option A :=
  match c with
  | Some _ => c
  | None => d
  end.

Definition spread_config (d c : RequestConfig) : RequestConfig :=
  {| url := spread (url d) (url c);
     showGlobalMessage := spread (showGlobalMessage d) (showGlobalMessage c);
     successCode := spread (successCode d) (successCode c);
     enableCodeCheck := spread (enableCodeCheck d) (enableCodeCheck c) |}.

(** What [instance.request(config)] of axios does before the request
    interceptors run: it merges [config] over the defaults of the instance,
    here the custom properties that [axios.create] got from [axiosConfig].  A
    property that the call defines wins; [url] is taken from the call only. *)
Definition mergeConfig (defaults config : RequestConfig) : RequestConfig :=
  {| url := url config;
     showGlobalMessage := spread (showGlobalMessage defaults) (showGlobalMessage config);
     successCode := spread (successCode defaults) (successCode config);
     enableCodeCheck := spread (enableCodeCheck defaults) (enableCodeCheck config) |}.

(** [ApiResponse<T>] *)
Record ApiResponse (T : Type) : Type := mkApi {
  code : Z;
  message : string;
  data : T
}.
Arguments mkApi {T} _ _ _.
Arguments code {T} _.
Arguments message {T} _.
Arguments data {T} _.

(** [RequestHandlers] *)
Record RequestHandlers : Type := mkHandlers {
  handleRequestHeader : option (RequestConfig -> RequestConfig);
  handleGlobalMessage : bool;
  handleBackendError : bool
}.

(** A call of one of the two message hooks, with its arguments. *)
Inductive HookCall : Type :=
| GlobalMessage (msg : string)
| BackendError (c : Z) (msg : string).

(** [AxiosResponse<ApiResponse>], as far as the interceptor reads it. *)
Record AxiosResponse (T : Type) : Type := mkResponse {
  resp_data : ApiResponse T;
  resp_config : RequestConfig
}.
Arguments mkResponse {T} _ _.
Arguments resp_data {T} _.
Arguments resp_config {T} _.

(** [error.response] of a failed request: its status and
    [error.response.config?.url]. *)
Record ErrorResponse : Type := mkErrResponse {
  status : Z;
  response_url : option string
}.

(** The error object axios hands to the response-rejected interceptor. *)
Record AxiosError : Type := mkError {
  isCancel : bool;                      (* axios.isCancel(error) *)
  err_config : option RequestConfig;    (* error.config *)
  err_response : option ErrorResponse;  (* error.response *)
  err_request : bool;                   (* error.request is set *)
  err_message : string                  (* error.message *)
}.

(** [{ ...error, message: m }] *)
Definition with_message (e : AxiosError) (m : string) : AxiosError :=
  {| isCancel := isCancel e;
     err_config := err_config e;
     err_response := err_response e;
     err_request := err_request e;
     err_message := m |}.

(** What the transport (axios and the server) does with a request. *)
Inductive Transport (T : Type) : Type :=
| Responded (body : ApiResponse T)   (* HTTP success, envelope decoded *)
| Failed (e : AxiosError).           (* rejected by axios *)
Arguments Responded {T} body.
Arguments Failed {T} e.

(** Why [request()] rejects. *)
Inductive Rejection (T : Type) : Type :=
| BusinessFailure (res : ApiResponse T)
| TransportFailure (e : AxiosError).
Arguments BusinessFailure {T} res.
Arguments TransportFailure {T} e.

(** [config?.showGlobalMessage] on a possibly absent config. *)
Definition wants_global_message (c : option RequestConfig) : bool :=
  match c with
  | Some cfg => JS.truthy_flag (showGlobalMessage cfg)
  | None => false
  end.

(** ** src/src/request.ts *)

Module SrcRequest.

Definition defaultConfig : RequestConfig :=
  {| url := None;
     showGlobalMessage := Some true;
     successCode := Some 10000%Z;
     enableCodeCheck := None |}.

Definition requestOnFulfilled (h : RequestHandlers) (config : RequestConfig)
  : RequestConfig :=
  let config := spread_config defaultConfig config in
  match handleRequestHeader h with
  | Some f => f config
  | None => config
  end.

Definition requestOnRejected (error : AxiosError) : Settled RequestConfig AxiosError :=
  Reject error.

Definition responseOnFulfilled {T : Type} (h : RequestHandlers)
    (response : AxiosResponse T)
  : list HookCall * Settled T (ApiResponse T) :=
  let config := resp_config response in
  let res := resp_data response in
  let isSuccess := JS.strict_eq (successCode config) (code res) in
  if negb isSuccess then
    let errorMessage :=
      JS.or_string (message res)
        ("请求失败，业务码：" ++ JS.Number_toString (code res)) in
    let calls :=
      if handleBackendError h then [BackendError (code res) (message res)]
      else if JS.truthy_flag (showGlobalMessage config) then
        (if handleGlobalMessage h then [GlobalMessage errorMessage] else [])
      else [] in
    (calls, Reject res)
  else ([], Resolve (data res)).

Definition errorMessageOf (error : AxiosError) : string :=
  if isCancel error then "请求已取消"
  else match err_response error with
       | Some response =>
           let status := status response in
           if (status =? 401)%Z then "未授权，请重新登录"
           else if (status =? 403)%Z then "拒绝访问"
           else if (status =? 404)%Z then
             "请求地址不存在: " ++ JS.template (response_url response)
           else if (status =? 500)%Z then "服务器内部错误"
           else "HTTP错误: " ++ JS.Number_toString status
       | None =>
           if err_request error then "网络错误，无法连接到服务器"
           else "未知错误"
       end.

Definition responseOnRejected {A : Type} (h : RequestHandlers)
    (error : AxiosError)
  : list HookCall * Settled A AxiosError :=
  let config := err_config error in
  let errorMessage := errorMessageOf error in
  let calls :=
    if wants_global_message config then
      (if handleGlobalMessage h then [GlobalMessage errorMessage] else [])
    else [] in
  (calls, Reject (with_message error errorMessage)).

(** [request]: [this.instance.request(config)] of an instance created with
    [axiosConfig]; the merge with the defaults of the instance, then the
    default interceptors around the transport. *)
Definition request {T : Type} (h : RequestHandlers)
    (axiosConfig config : RequestConfig) (t : Transport T)
  : list HookCall * Settled T (Rejection T) :=
  let config := requestOnFulfilled h (mergeConfig axiosConfig config) in
  match t with
  | Responded body =>
      match responseOnFulfilled h (mkResponse body config) with
      | (calls, Resolve v) => (calls, Resolve v)
      | (calls, Reject res) => (calls, Reject (BusinessFailure res))
      end
  | Failed e =>
      match responseOnRejected (A := T) h e with
      | (calls, Resolve v) => (calls, Resolve v)
      | (calls, Reject e') => (calls, Reject (TransportFailure e'))
      end
  end.

End SrcRequest.

(** ** src/utils/request.ts: the request pipeline *)

Module UtilsRequest.

Definition defaultConfig : RequestConfig :=
  {| url := None;
     showGlobalMessage := Some true;
     successCode := Some 10000%Z;
     enableCodeCheck := Some true |}.

Definition requestOnFulfilled (h : RequestHandlers) (config : RequestConfig)
  : RequestConfig :=
  let config := spread_config defaultConfig config in
  match handleRequestHeader h with
  | Some f => f config
  | None => config
  end.

Definition requestOnRejected (error : AxiosError) : Settled RequestConfig AxiosError :=
  Reject error.

Definition responseOnFulfilled {T : Type} (h : RequestHandlers)
    (response : AxiosResponse T)
  : list HookCall * Settled (ApiResponse T) (ApiResponse T) :=
  let config := resp_config response in
  let res := resp_data response in
  let isSuccess :=
    if JS.truthy_flag (enableCodeCheck config)
    then JS.strict_eq (successCode config) (code res)
    else true in
  if negb isSuccess then
    let errorMessage :=
      JS.or_string (message res)
        ("请求失败，业务码：" ++ JS.Number_toString (code res)) in
    let calls :=
      if handleBackendError h then [BackendError (code res) (message res)]
      else if JS.truthy_flag (showGlobalMessage config) then
        (if handleGlobalMessage h then [GlobalMessage errorMessage] else [])
      else [] in
    (calls, Reject res)
  else ([], Resolve res).

Definition errorMessageOf (error : AxiosError) : string :=
  if isCancel error then "请求已取消"
  else match err_response error with
       | Some response =>
           let status := status response in
           if (status =? 401)%Z then "未授权，请重新登录"
           else if (status =? 403)%Z then "拒绝访问"
           else if (status =? 404)%Z then
             "请求地址不存在: " ++ JS.template (response_url response)
           else if (status =? 500)%Z then "服务器内部错误"
           else "HTTP错误: " ++ JS.Number_toString status
       | None =>
           if err_request error then "网络错误，无法连接到服务器"
           else "未知错误"
       end.

Definition responseOnRejected {A : Type} (h : RequestHandlers)
    (error : AxiosError)
  : list HookCall * Settled A AxiosError :=
  let config := err_config error in
  let errorMessage := errorMessageOf error in
  let calls :=
    if wants_global_message config then
      (if handleGlobalMessage h then [GlobalMessage errorMessage] else [])
    else [] in
  (calls, Reject (with_message error errorMessage)).

(** [request]: [this.instance.request(config)] of an instance created with
    [axiosConfig]; the merge with the defaults of the instance, then the
    default interceptors around the transport. *)
Definition request {T : Type} (h : RequestHandlers)
    (axiosConfig config : RequestConfig) (t : Transport T)
  : list HookCall * Settled (ApiResponse T) (Rejection T) :=
  let config := requestOnFulfilled h (mergeConfig axiosConfig config) in
  match t with
  | Responded body =>
      match responseOnFulfilled h (mkResponse body config) with
      | (calls, Resolve v) => (calls, Resolve v)
      | (calls, Reject res) => (calls, Reject (BusinessFailure res))
      end
  | Failed e =>
      match responseOnRejected (A := ApiResponse T) h e with
      | (calls, Resolve v) => (calls, Resolve v)
      | (calls, Reject e') => (calls, Reject (TransportFailure e'))
      end
  end.

End UtilsRequest.

(** ** String operations of the stream consumer *)

Module Str.

Definition LF : ascii := ascii_of_nat 10.

(** The text ["\n"]. *)
Definition newline : string := String LF EmptyString.

(** [s.split('\n')]: never empty, the last piece is what follows the last
    line feed. *)
Fixpoint split_lines (s : string) : list string :=
  match s with
  | EmptyString => [EmptyString]
  | String c rest =>
      if Ascii.eqb c LF then EmptyString :: split_lines rest
      else match split_lines rest with
           | l :: ls => String c l :: ls
           | [] => [String c EmptyString]
           end
  end.

(** [s.startsWith(p)] *)
Definition startsWith (p s : string) : bool := String.prefix p s.

(** [s.slice(n)].  It is applied after [startsWith('data: ')] only, where
    the six code units dropped are the six bytes of the prefix. *)
Fixpoint slice (n : nat) (s : string) : string :=
  match n, s with
  | O, _ => s
  | S n', String _ rest => slice n' rest
  | S _, EmptyString => EmptyString
  end.

(** The white space and line terminators that [trim] removes, by the bytes
    of their UTF-8 encoding: U+0009..U+000D and U+0020 (one byte), U+00A0
    (two bytes), U+1680, U+2000..U+200A, U+2028, U+2029, U+202F, U+205F,
    U+3000 and U+FEFF (three bytes). *)
Definition ws1 (a : ascii) : bool :=
  let n := nat_of_ascii a in
  (((9 <=? n) && (n <=? 13)) || (n =? 32))%nat.

Definition ws2 (a b : ascii) : bool :=
  ((nat_of_ascii a =? 194) && (nat_of_ascii b =? 160))%nat.

Definition ws3 (a b c : ascii) : bool :=
  let x := nat_of_ascii a in
  let y := nat_of_ascii b in
  let z := nat_of_ascii c in
  (((x =? 225) && (y =? 154) && (z =? 128))
   || ((x =? 226) && (y =? 128)
       && (((128 <=? z) && (z <=? 138)) || (z =? 168) || (z =? 169) || (z =? 175)))
   || ((x =? 226) && (y =? 129) && (z =? 159))
   || ((x =? 227) && (y =? 128) && (z =? 128))
   || ((x =? 239) && (y =? 187) && (z =? 191)))%nat.

Fixpoint trimStart (s : string) : string :=
  match s with
  | EmptyString => EmptyString
  | String a r1 =>
      if ws1 a then trimStart r1
      else match r1 with
           | EmptyString => s
           | String b r2 =>
               if ws2 a b then trimStart r2
               else match r2 with
                    | EmptyString => s
                    | String c r3 => if ws3 a b c then trimStart r3 else s
                    end
           end
  end.

Fixpoint rev_onto (s acc : string) : string :=
  match s with
  | EmptyString => acc
  | String c rest => rev_onto rest (String c acc)
  end.

Definition rev (s : string) : string := rev_onto s EmptyString.

(** [trimStart] on the reversed text: the bytes of a white space come in
    reverse order. *)
Fixpoint trimStart_rev (s : string) : string :=
  match s with
  | EmptyString => EmptyString
  | String a r1 =>
      if ws1 a then trimStart_rev r1
      else match r1 with
           | EmptyString => s
           | String b r2 =>
               if ws2 b a then trimStart_rev r2
               else match r2 with
                    | EmptyString => s
                    | String c r3 => if ws3 c b a then trimStart_rev r3 else s
                    end
           end
  end.

Definition trimEnd (s : string) : string := rev (trimStart_rev (rev s)).

(** [s.trim()] *)
Definition trim (s : string) : string := trimEnd (trimStart s).

End Str.

(** ** src/utils/request.ts: [stream]

    The request sent by [fetch] (URL, method, headers, body) is not modelled:
    [stream] is a function of what [fetch] and the body reader answer.  A
    chunk is the text that [decoder.decode(value, { stream: true })] returns
    for one read.  The body is a finite list of answers; [extractContent] and
    the callbacks return normally.

    The local [controller] is referred to by the returned closure only, so
    during a call nothing can abort it; the caller can abort the signal it
    passed as [options.signal] at any time, which is a [CallerAborts] in the
    list of what happens during the reads. *)

Module UtilsStream.

(** A JavaScript error object. *)
Record Error : Type := mkErr {
  name : string;
  message : string
}.

(** [new Error(m)] *)
Definition new_Error (m : string) : Error :=
  {| name := "Error"; message := m |}.

(** The reason of a signal aborted by [abort()] without an argument. *)
Definition AbortError : Error :=
  {| name := "AbortError"; message := "signal is aborted without reason" |}.

(** The two abort signals in scope of [stream], each by its abort reason:
    [options.signal], which the caller controls, and [controller.signal] of
    the [AbortController] that [stream] creates.  [None]: not aborted. *)
Record Signals : Type := mkSignals {
  external : option Error;
  controller : option Error
}.

(** [controller.abort()] *)
Definition controller_abort (s : Signals) : Signals :=
  {| external := external s;
     controller := match controller s with
                   | Some r => Some r
                   | None => Some AbortError
                   end |}.

(** The closure [() => controller.abort()] and its call. *)
Inductive AbortHandle : Type :=
| ControllerAbort.

Definition invoke (f : AbortHandle) (s : Signals) : Signals :=
  match f with
  | ControllerAbort => controller_abort s
  end.

(** [StreamResponse] *)
Record StreamResponse : Type := mkStreamResponse {
  fullText : string;
  abort : AbortHandle
}.

(** One answer of [reader.read()] before the end of the body. *)
Inductive ReadResult : Type :=
| Value (chunk : string)      (* { done: false, value }, decoded *)
| Rejects (e : Error).        (* the read promise rejects *)

(** What happens while the body is read: the caller aborts the signal it
    passed as [options.signal], or the next read is answered.  The end of
    the list is the read that answers [{ done: true }]. *)
Inductive Tick : Type :=
| CallerAborts (reason : Error)
| Reads (r : ReadResult).

(** The [Response] of [fetch], as far as [stream] reads it. *)
Record Response : Type := mkFetchResponse {
  ok : bool;
  status : Z;
  body : option (list Tick)    (* [None]: response.body is null *)
}.

Inductive FetchResult : Type :=
| Fetched (r : Response)
| FetchRejected (e : Error).

(** [StreamCallbacks]: which callbacks are registered. *)
Record StreamCallbacks : Type := mkCallbacks {
  onMessage : bool;
  onError : bool;
  onComplete : bool;
  onStart : bool
}.

Section WithPlatform.

(** The values [JSON.parse] returns, with [JSON.parse] itself ([None]: it
    throws), ToBoolean and the conversion that [+=] on a string applies. *)
Variable JSValue : Type.
Variable JSON_parse : string -> option JSValue.
Variable ToBoolean : JSValue -> bool.
Variable ToString : JSValue -> string.

(** [StreamRequestOptions], as far as the response handling reads it. *)
Record StreamRequestOptions : Type := mkOptions {
  signal : bool;                                  (* options.signal given *)
  extractContent : option (JSValue -> string)
}.

(** The value bound to [content]: a string, or the parsed value. *)
Inductive Content : Type :=
| CStr (s : string)
| CVal (v : JSValue).

Definition content_truthy (c : Content) : bool :=
  match c with
  | CStr s => JS.truthy_string s
  | CVal v => ToBoolean v
  end.

Definition content_string (c : Content) : string :=
  match c with
  | CStr s => s
  | CVal v => ToString v
  end.

(** A call of a registered callback. *)
Inductive Event : Type :=
| OnStart
| OnMessage (chunk : Content) (full : string)
| OnError (e : Error)
| OnComplete (full : string).

(** The variables of one call of [stream]. *)
Record State : Type := mkState {
  st_fullText : string;       (* let fullText *)
  st_calls : list Event;      (* callbacks called so far, oldest first *)
  st_reads : nat;             (* calls of reader.read() so far *)
  st_signals : Signals
}.

(** How a statement completes. *)
Inductive Completion (A : Type) : Type :=
| Normal (a : A)
| Return (r : StreamResponse)
| Throw (e : Error).
Arguments Normal {A} a.
Arguments Return {A} r.
Arguments Throw {A} e.

Definition M (A : Type) : Type := State -> State * Completion A.

Definition ret {A : Type} (a : A) : M A := fun st => (st, Normal a).

Definition bind {A B : Type} (m : M A) (k : A -> M B) : M B :=
  fun st =>
    match m st with
    | (st', Normal a) => k a st'
    | (st', Return r) => (st', Return r)
    | (st', Throw e) => (st', Throw e)
    end.

Notation "x <- m ;; k" := (bind m (fun x => k))
  (at level 61, m at next level, right associativity).
Notation "m ;; k" := (bind m (fun _ => k))
  (at level 61, right associativity).

Definition throw {A : Type} (e : Error) : M A := fun st => (st, Throw e).

Definition return_ {A : Type} (r : StreamResponse) : M A :=
  fun st => (st, Return r).

Definition get_fullText : M string := fun st => (st, Normal (st_fullText st)).

(** [fullText += s] *)
Definition append (s : string) : M unit :=
  fun st =>
    ({| st_fullText := st_fullText st ++ s;
        st_calls := st_calls st;
        st_reads := st_reads st;
        st_signals := st_signals st |}, Normal tt).

(** [cb?.(...)], recorded as [e] *)
Definition call (registered : bool) (e : Event) : M unit :=
  fun st =>
    if registered then
      ({| st_fullText := st_fullText st;
          st_calls := st_calls st ++ [e];
          st_reads := st_reads st;
          st_signals := st_signals st |}, Normal tt)
    else (st, Normal tt).

Definition count_read : M unit :=
  fun st =>
    ({| st_fullText := st_fullText st;
        st_calls := st_calls st;
        st_reads := S (st_reads st);
        st_signals := st_signals st |}, Normal tt).

Definition abort_external (reason : Error) : M unit :=
  fun st =>
    ({| st_fullText := st_fullText st;
        st_calls := st_calls st;
        st_reads := st_reads st;
        st_signals :=
          {| external := match external (st_signals st) with
                         | Some r => Some r
                         | None => Some reason
                         end;
             controller := controller (st_signals st) |} |}, Normal tt).

Variable options : StreamRequestOptions.
Variable callbacks : StreamCallbacks.

(** [requestSignal = signal || controller.signal], by its abort reason. *)
Definition requestSignal (s : Signals) : option Error :=
  if signal options then external s else controller s.

(** [extractContent?.(parsed) || parsed] *)
Definition content_of (parsed : JSValue) : Content :=
  match extractContent options with
  | Some f => if JS.truthy_string (f parsed) then CStr (f parsed)
              else CVal parsed
  | None => CVal parsed
  end.

Definition message_ (c : Content) : M unit :=
  full <- get_fullText ;;
  call (onMessage callbacks) (OnMessage c full).

Definition complete_ : M unit :=
  full <- get_fullText ;;
  call (onComplete callbacks) (OnComplete full).

(** The body of [for (const line of lines)]. *)
Definition process_line (line : string) : M unit :=
  if Str.trim line =? "" then ret tt
  else if Str.startsWith "data: " line then
    let data := Str.trim (Str.slice 6 line) in
    if data =? "[DONE]" then
      complete_ ;;
      full <- get_fullText ;;
      return_ {| fullText := full; abort := ControllerAbort |}
    else
      match JSON_parse data with
      | Some parsed =>
          let content := content_of parsed in
          if content_truthy content then
            append (content_string content) ;;
            message_ content
          else ret tt
      | None =>
          append data ;;
          message_ (CStr data)
      end
  else
    append line ;;
    message_ (CStr line).

Fixpoint for_lines (lines : list string) : M unit :=
  match lines with
  | [] => ret tt
  | line :: rest => process_line line ;; for_lines rest
  end.

(** [await reader.read()] while the request signal is watched: once the
    signal is aborted the read rejects with the abort reason. *)
Definition read (answer : option ReadResult) : M (option string) :=
  count_read ;;
  fun st =>
    match requestSignal (st_signals st) with
    | Some reason => (st, Throw reason)
    | None =>
        match answer with
        | None => (st, Normal None)
        | Some (Value chunk) => (st, Normal (Some chunk))
        | Some (Rejects e) => (st, Throw e)
        end
    end.

(** [while (true) { ... }] over the answers of the reader. *)
Fixpoint read_loop (ticks : list Tick) : M unit :=
  match ticks with
  | [] => _ <- read None ;; ret tt
  | CallerAborts reason :: rest => abort_external reason ;; read_loop rest
  | Reads r :: rest =>
      v <- read (Some r) ;;
      match v with
      | None => ret tt
      | Some chunk => for_lines (Str.split_lines chunk) ;; read_loop rest
      end
  end.

(** The [try] block; it is left by [return] or by an error only. *)
Definition try_block (w : FetchResult) : M Empty_set :=
  call (onStart callbacks) OnStart ;;
  response <- match w with
              | Fetched r => ret r
              | FetchRejected e => throw e
              end ;;
  (if negb (ok response)
   then throw (new_Error ("HTTP error! status: "
                          ++ JS.Number_toString (status response)))
   else ret tt) ;;
  reader <- match body response with
            | Some ticks => ret ticks
            | None => throw (new_Error "Response body is not readable")
            end ;;
  read_loop reader ;;
  complete_ ;;
  full <- get_fullText ;;
  return_ {| fullText := full; abort := ControllerAbort |}.

(** The result of one call: how the promise settles, the callbacks called
    in order, the number of reads and the state of the signals. *)
Record Outcome : Type := mkOutcome {
  settled : Settled StreamResponse Error;
  calls : list Event;
  reads : nat;
  signals : Signals
}.

Definition initial : State :=
  {| st_fullText := "";
     st_calls := [];
     st_reads := 0;
     st_signals := {| external := None; controller := None |} |}.

Definition finish (st : State) (s : Settled StreamResponse Error) : Outcome :=
  {| settled := s;
     calls := st_calls st;
     reads := st_reads st;
     signals := st_signals st |}.

(** [stream(options, callbacks)] *)
Definition stream (w : FetchResult) : Outcome :=
  match try_block w initial with
  | (st, Return r) => finish st (Resolve r)
  | (_, Normal impossible) => match impossible with end
  | (st, Throw err) =>
      match call (onError callbacks) (OnError err) st with
      | (st', _) => finish st' (Reject err)
      end
  end.

(** The state when the [try] block has called [onStart]. *)
Definition started : State :=
  fst (call (onStart callbacks) OnStart initial).

(** Classification of the recorded calls. *)
Definition is_OnError (e : Event) : bool :=
  match e with
  | OnError _ => true
  | _ => false
  end.

Definition is_OnComplete (e : Event) : bool :=
  match e with
  | OnComplete _ => true
  | _ => false
  end.

(** The discipline of the statements inside the [try] block: a statement
    records no call of [onError], and it records a call of [onComplete] only
    when it returns from [stream]. *)
Definition disciplined {A : Type} (m : M A) : Prop :=
  forall st st' c,
    m st = (st', c) ->
    exists evs,
      st_calls st' = (st_calls st ++ evs)%list
      /\ filter is_OnError evs = []
      /\ ((forall r, c <> Return r) -> filter is_OnComplete evs = []).

End WithPlatform.

(** A body that answers the given chunks, one per read, and then ends. *)
Definition values (chunks : list string) : list Tick :=
  map (fun chunk => Reads (Value chunk)) chunks.

Arguments mkOptions {JSValue} signal extractContent.
Arguments signal {JSValue} _.
Arguments extractContent {JSValue} _.
Arguments CStr {JSValue} s.
Arguments CVal {JSValue} v.
Arguments OnStart {JSValue}.
Arguments OnMessage {JSValue} chunk full.
Arguments OnError {JSValue} e.
Arguments OnComplete {JSValue} full.
Arguments mkState {JSValue} _ _ _ _.
Arguments st_fullText {JSValue} _.
Arguments st_calls {JSValue} _.
Arguments st_reads {JSValue} _.
Arguments st_signals {JSValue} _.
Arguments Normal {A} a.
Arguments Return {A} r.
Arguments Throw {A} e.
Arguments mkOutcome {JSValue} _ _ _ _.
Arguments settled {JSValue} _.
Arguments calls {JSValue} _.
Arguments reads {JSValue} _.
Arguments signals {JSValue} _.
Arguments initial {JSValue}.
Arguments requestSignal {JSValue} options s.
Arguments content_of {JSValue} options parsed.
Arguments content_truthy {JSValue} ToBoolean c.
Arguments content_string {JSValue} ToString c.
Arguments process_line {JSValue} JSON_parse ToBoolean ToString options callbacks line _.
Arguments for_lines {JSValue} JSON_parse ToBoolean ToString options callbacks lines _.
Arguments read {JSValue} options answer _.
Arguments read_loop {JSValue} JSON_parse ToBoolean ToString options callbacks ticks _.
Arguments try_block {JSValue} JSON_parse ToBoolean ToString options callbacks w _.
Arguments stream {JSValue} JSON_parse ToBoolean ToString options callbacks w.
Arguments started {JSValue} callbacks.
Arguments is_OnError {JSValue} e.
Arguments is_OnComplete {JSValue} e.
Arguments append {JSValue} s _.
Arguments call {JSValue} registered e _.
Arguments count_read {JSValue} _.
Arguments abort_external {JSValue} reason _.
Arguments message_ {JSValue} callbacks c _.
Arguments complete_ {JSValue} callbacks _.
Arguments finish {JSValue} st s.
Arguments disciplined {JSValue A} m.
Arguments bind {JSValue A B} m k _.
Arguments ret {JSValue A} a _.

End UtilsStream.

(** ** The platform's JSON, on a fragment

    [JSON.parse], ToBoolean and ToString on the JSON texts made of [null],
    [true], [false], integer literals within the safe range, string literals
    without escapes, arrays and objects.  On this fragment [parse] answers as
    [JSON.parse] does; it answers [None] on every other text, whether
    [JSON.parse] throws on it or it lies outside the fragment (fractions,
    exponents, escapes).  It instantiates the platform of [UtilsStream] on
    concrete inputs. *)

Module JSON.

Definition is_ws (a : ascii) : bool :=
  let n := nat_of_ascii a in
  ((n =? 32) || (n =? 9) || (n =? 10) || (n =? 13))%nat.

Fixpoint skip_ws (s : string) : string :=
  match s with
  | String a rest => if is_ws a then skip_ws rest else s
  | EmptyString => s
  end.

Definition digit (a : ascii) : option Z :=
  let n := nat_of_ascii a in
  if ((48 <=? n) && (n <=? 57))%nat then Some (Z.of_nat (n - 48)) else None.

Fixpoint digits (acc : Z) (s : string) : Z * string :=
  match s with
  | String a rest =>
      match digit a with
      | Some d => digits (10 * acc + d)%Z rest
      | None => (acc, s)
      end
  | EmptyString => (acc, s)
  end.

Definition max_safe : Z := 9007199254740991.

(** [0] or a digit sequence without leading zero *)
Definition natural (s : string) : option (Z * string) :=
  match s with
  | String a rest =>
      match digit a with
      | Some 0%Z => Some (0%Z, rest)
      | Some d =>
          let (n, rest') := digits d rest in
          if (n <=? max_safe)%Z then Some (n, rest') else None
      | None => None
      end
  | EmptyString => None
  end.

(** The characters of a string literal up to the closing quote. *)
Fixpoint chars (s : string) : option (string * string) :=
  match s with
  | EmptyString => None
  | String a rest =>
      let n := nat_of_ascii a in
      if (n =? 34)%nat then Some (EmptyString, rest)
      else if ((n =? 92) || (n <? 32))%nat then None
      else match chars rest with
           | Some (str, rest') => Some (String a str, rest')
           | None => None
           end
  end.

Definition expect (a : ascii) (s : string) : option string :=
  match s with
  | String b rest => if Ascii.eqb a b then Some rest else None
  | EmptyString => None
  end.

Definition QUOTE : ascii := ascii_of_nat 34.

(** The text of one double quote. *)
Definition quote : string := String QUOTE EmptyString.

Definition keyword (k : string) (v : json) (s : string) : option (json * string) :=
  if String.prefix k s then Some (v, Str.slice (String.length k) s) else None.

(** What follows a value inside an array or an object. *)
Inductive Next : Type :=
| More (rest : string)      (* a comma *)
| Close (rest : string)     (* the closing bracket *)
| Bad.

Definition next (closing : ascii) (s : string) : Next :=
  match s with
  | String a rest =>
      if Ascii.eqb a "," then More rest
      else if Ascii.eqb a closing then Close rest
      else Bad
  | EmptyString => Bad
  end.

(** A value with the white space around it; [fuel] bounds the recursion. *)
Fixpoint value (fuel : nat) (s : string) : option (json * string) :=
  match fuel with
  | O => None
  | S fuel =>
      let elements :=
        fix elements (n : nat) (acc : list json) (s : string)
          : option (json * string) :=
          match n with
          | O => None
          | S n =>
              match value fuel s with
              | Some (v, s1) =>
                  match next "]" s1 with
                  | More rest => elements n (acc ++ [v])%list rest
                  | Close rest => Some (JArr (acc ++ [v])%list, rest)
                  | Bad => None
                  end
              | None => None
              end
          end in
      let members :=
        fix members (n : nat) (acc : list (string * json)) (s : string)
          : option (json * string) :=
          match n with
          | O => None
          | S n =>
              match expect QUOTE (skip_ws s) with
              | Some s1 =>
                  match chars s1 with
                  | Some (key, s2) =>
                      match expect ":" (skip_ws s2) with
                      | Some s3 =>
                          match value fuel s3 with
                          | Some (v, s4) =>
                              match next "}" s4 with
                              | More rest => members n (acc ++ [(key, v)])%list rest
                              | Close rest => Some (JObj (acc ++ [(key, v)])%list, rest)
                              | Bad => None
                              end
                          | None => None
                          end
                      | None => None
                      end
                  | None => None
                  end
              | None => None
              end
          end in
      let after (r : option (json * string)) :=
        match r with
        | Some (v, rest) => Some (v, skip_ws rest)
        | None => None
        end in
      match skip_ws s with
      | EmptyString => None
      | String a rest =>
          if Ascii.eqb a "n" then after (keyword "null" JNull (String a rest))
          else if Ascii.eqb a "t" then after (keyword "true" (JBool true) (String a rest))
          else if Ascii.eqb a "f" then after (keyword "false" (JBool false) (String a rest))
          else if Ascii.eqb a QUOTE then
            match chars rest with
            | Some (str, rest') => Some (JStr str, skip_ws rest')
            | None => None
            end
          else if Ascii.eqb a "-" then
            match natural rest with
            | Some (n, rest') => Some (JNum (- n), skip_ws rest')
            | None => None
            end
          else if Ascii.eqb a "[" then
            match expect "]" (skip_ws rest) with
            | Some rest' => Some (JArr [], skip_ws rest')
            | None => after (elements (String.length rest) [] rest)
            end
          else if Ascii.eqb a "{" then
            match expect "}" (skip_ws rest) with
            | Some rest' => Some (JObj [], skip_ws rest')
            | None => after (members (String.length rest) [] rest)
            end
          else
            match natural (String a rest) with
            | Some (n, rest') => Some (JNum n, skip_ws rest')
            | None => None
            end
      end
  end.

(** [JSON.parse(text)]: one value and nothing after it. *)
Definition parse (text : string) : option json :=
  match value (S (String.length text)) text with
  | Some (v, EmptyString) => Some v
  | _ => None
  end.

(** ToBoolean *)
Definition ToBoolean (v : json) : bool :=
  match v with
  | JNull => false
  | JBool b => b
  | JNum n => negb (n =? 0)%Z
  | JStr s => JS.truthy_string s
  | JArr _ => true
  | JObj _ => true
  end.

(** ToString, as string concatenation applies it: an array joins its
    elements with commas, [null] elements being empty. *)
Fixpoint ToString (v : json) : string :=
  match v with
  | JNull => "null"
  | JBool true => "true"
  | JBool false => "false"
  | JNum n => JS.Number_toString n
  | JStr s => s
  | JArr items =>
      let element (x : json) : string :=
        match x with
        | JNull => ""
        | _ => ToString x
        end in
      (fix join (l : list json) : string :=
         match l with
         | [] => ""
         | [x] => element x
         | x :: rest => element x ++ "," ++ join rest
         end) items
  | JObj _ => "[object Object]"
  end.

(** [v[key]]: the last member with that key, if [v] is an object. *)
Definition get (key : string) (v : json) : option json :=
  match v with
  | JObj members =>
      fold_left (fun found kv => if fst kv =? key then Some (snd kv) else found)
                members None
  | _ => None
  end.

(** [String(x)] of a possibly undefined value. *)
Definition String_ (x : option json) : string :=
  match x with
  | Some v => ToString v
  | None => "undefined"
  end.

End JSON.

(** The envelope [res] as the JSON value it was decoded from. *)
Definition envelope_json (res : ApiResponse json) : json :=
  JObj [("code", JNum (code res));
        ("message", JStr (message res));
        ("data", data res)].

(** The number of constructors of a JSON value. *)
Fixpoint json_size (v : json) : nat :=
  match v with
  | JArr items =>
      S ((fix sum (l : list json) : nat :=
            match l with
            | [] => 0
            | x :: rest => json_size x + sum rest
            end) items)
  | JObj members =>
      S ((fix sum (l : list (string * json)) : nat :=
            match l with
            | [] => 0
            | (_, x) :: rest => json_size x + sum rest
            end) members)
  | _ => 1
  end.

(** ** The verb helpers [get], [post], [put], [delete]

    They are the same in both variants.  The config handed to [request] is
    the [RequestConfig] above together with the axios properties the helpers
    write. *)

Module Verbs.

(** [RequestConfig], with [method], [params] and [data]. *)
Record CallConfig : Type := mkCall {
  cc_config : RequestConfig;        (* url and the custom properties *)
  cc_method : option string;
  cc_params : option json;
  cc_data : option json
}.

(** [{ ...config }] of the optional third argument. *)
Definition own (config : option CallConfig) : CallConfig :=
  match config with
  | Some c => c
  | None => mkCall (mkConfig None None None None) None None None
  end.

(** [{ ...c, url }] *)
Definition with_url (u : string) (c : RequestConfig) : RequestConfig :=
  {| url := Some u;
     showGlobalMessage := showGlobalMessage c;
     successCode := successCode c;
     enableCodeCheck := enableCodeCheck c |}.

(** [{ ...config, url, method: 'GET', params }] *)
Definition get_config (u : string) (params : option json)
    (config : option CallConfig) : CallConfig :=
  {| cc_config := with_url u (cc_config (own config));
     cc_method := Some "GET";
     cc_params := params;
     cc_data := cc_data (own config) |}.

(** [{ ...config, url, method: 'POST', data }] *)
Definition post_config (u : string) (data : option json)
    (config : option CallConfig) : CallConfig :=
  {| cc_config := with_url u (cc_config (own config));
     cc_method := Some "POST";
     cc_params := cc_params (own config);
     cc_data := data |}.

(** [{ ...config, url, method: 'PUT', data }] *)
Definition put_config (u : string) (data : option json)
    (config : option CallConfig) : CallConfig :=
  {| cc_config := with_url u (cc_config (own config));
     cc_method := Some "PUT";
     cc_params := cc_params (own config);
     cc_data := data |}.

(** [{ ...config, url, method: 'DELETE', params }] *)
Definition delete_config (u : string) (params : option json)
    (config : option CallConfig) : CallConfig :=
  {| cc_config := with_url u (cc_config (own config));
     cc_method := Some "DELETE";
     cc_params := params;
     cc_data := cc_data (own config) |}.

(** The helpers of src/utils/request.ts: [this.request<T>({ ... })]. *)
Definition get {T : Type} (h : RequestHandlers) (axiosConfig : RequestConfig)
    (u : string) (params : option json) (config : option CallConfig) (t : Transport T) :=
  UtilsRequest.request h axiosConfig (cc_config (get_config u params config)) t.

Definition post {T : Type} (h : RequestHandlers) (axiosConfig : RequestConfig)
    (u : string) (data : option json) (config : option CallConfig) (t : Transport T) :=
  UtilsRequest.request h axiosConfig (cc_config (post_config u data config)) t.

Definition put {T : Type} (h : RequestHandlers) (axiosConfig : RequestConfig)
    (u : string) (data : option json) (config : option CallConfig) (t : Transport T) :=
  UtilsRequest.request h axiosConfig (cc_config (put_config u data config)) t.

Definition delete {T : Type} (h : RequestHandlers) (axiosConfig : RequestConfig)
    (u : string) (params : option json) (config : option CallConfig) (t : Transport T) :=
  UtilsRequest.request h axiosConfig (cc_config (delete_config u params config)) t.

End Verbs.

(** ** src/utils/request.ts: the constructor and the request that [stream]
    sends *)

Module UtilsClient.

(** A JavaScript object with string values: its own properties, in order. *)
Definition Obj : Type := list (string * string).

(** [o[k]] *)
Fixpoint get (k : string) (o : Obj) : option string :=
  match o with
  | [] => None
  | (k', v) :: rest => if k' =? k then Some v else get k rest
  end.

(** [o[k] = v]: an existing property keeps its place. *)
Fixpoint assign (k v : string) (o : Obj) : Obj :=
  match o with
  | [] => [(k, v)]
  | (k', v') :: rest =>
      if k' =? k then (k, v) :: rest else (k', v') :: assign k v rest
  end.

(** [{ ...base, ...extra }] *)
Definition spread_objects (base extra : Obj) : Obj :=
  fold_left (fun o kv => assign (fst kv) (snd kv) o) extra base.

(** The part of [axiosConfig] that the constructor and [axios.create] see:
    [baseURL], [timeout] and the rest of [RequestConfig]. *)
Record AxiosConfig : Type := mkAxiosConfig {
  ax_baseURL : option string;
  ax_timeout : option Z;
  ax_request : RequestConfig
}.

(** [HttpClientOptions], without [customInterceptors]. *)
Record HttpClientOptions : Type := mkClientOptions {
  opt_baseURL : string;
  opt_axiosConfig : option AxiosConfig;
  opt_handlers : option RequestHandlers
}.

(** The fields of the client. *)
Record HttpClient : Type := mkClient {
  instance_config : AxiosConfig;    (* the argument of axios.create *)
  handlers : RequestHandlers;
  baseURL : string
}.

(** [constructor({ baseURL, axiosConfig = {}, handlers = {} })] *)
Definition constructor (o : HttpClientOptions) : HttpClient :=
  let axiosConfig :=
    match opt_axiosConfig o with
    | Some c => c
    | None => mkAxiosConfig None None (mkConfig None None None None)
    end in
  {| instance_config :=
       {| ax_baseURL := spread (Some (opt_baseURL o)) (ax_baseURL axiosConfig);
          ax_timeout := spread (Some 10000%Z) (ax_timeout axiosConfig);
          ax_request := ax_request axiosConfig |};
     handlers :=
       match opt_handlers o with
       | Some h => h
       | None => mkHandlers None false false
       end;
     baseURL := opt_baseURL o |}.

Section WithPlatform.

(** The values a body can be, with ToBoolean and [JSON.stringify]. *)
Variable JSValue : Type.
Variable ToBoolean : JSValue -> bool.
Variable JSON_stringify : JSValue -> string.

(** The properties of [StreamRequestOptions] that make the request. *)
Record StreamTarget : Type := mkTarget {
  target_url : string;
  target_baseURL : option string;
  target_method : option string;
  target_headers : option Obj;
  target_body : option JSValue
}.

(** The second argument of [fetch], without the signal. *)
Record RequestInit : Type := mkInit {
  init_method : string;
  init_headers : Obj;
  init_body : option string
}.

Definition defaultHeaders : Obj :=
  [("Content-Type", "application/json"); ("Accept", "text/event-stream")].

(** [`${baseURL}${url}`] with [baseURL = this.baseURL] by default. *)
Definition fetch_input (this : HttpClient) (o : StreamTarget) : string :=
  match target_baseURL o with
  | Some b => b
  | None => baseURL this
  end ++ target_url o.

Definition fetch_init (o : StreamTarget) : RequestInit :=
  {| init_method :=
       match target_method o with
       | Some m => m
       | None => "POST"
       end;
     init_headers :=
       spread_objects defaultHeaders
         match target_headers o with
         | Some hs => hs
         | None => []
         end;
     init_body :=
       match target_body o with
       | Some b => if ToBoolean b then Some (JSON_stringify b) else None
       | None => None
       end |}.

End WithPlatform.

Arguments mkTarget {JSValue} _ _ _ _ _.
Arguments target_url {JSValue} _.
Arguments target_baseURL {JSValue} _.
Arguments target_method {JSValue} _.
Arguments target_headers {JSValue} _.
Arguments target_body {JSValue} _.
Arguments fetch_input {JSValue} this o.
Arguments fetch_init {JSValue} ToBoolean JSON_stringify o.

End UtilsClient.

(** ** Reading the calls that [stream] records *)

Module StreamTrace.

(** A line that [stream] does not skip. *)
Definition nonblank (line : string) : bool :=
  negb (Str.trim line =? "").

(** The lines of the chunks, in order, that [stream] does not skip. *)
Definition nonblank_lines (chunks : list string) : list string :=
  filter nonblank (flat_map Str.split_lines chunks).

Section WithPlatform.

Context {JSValue : Type}.
Variable ToString : JSValue -> string.
Variable callbacks : UtilsStream.StreamCallbacks.

Definition is_OnMessage (e : UtilsStream.Event JSValue) : bool :=
  match e with
  | UtilsStream.OnMessage _ _ => true
  | _ => false
  end.

(** [running start msgs final]: [msgs] are calls of [onMessage] only; each
    was made with the text accumulated so far, its own chunk included; the
    text was [start] before them and is [final] after them. *)
Fixpoint running (start : string) (msgs : list (UtilsStream.Event JSValue))
    (final : string) : Prop :=
  match msgs with
  | [] => final = start
  | UtilsStream.OnMessage chunk full :: rest =>
      full = start ++ UtilsStream.content_string ToString chunk
      /\ running full rest final
  | _ :: _ => False
  end.

(** The chunks passed to [onMessage], in their string form. *)
Fixpoint chunk_texts (evs : list (UtilsStream.Event JSValue)) : list string :=
  match evs with
  | [] => []
  | UtilsStream.OnMessage chunk _ :: rest =>
      UtilsStream.content_string ToString chunk :: chunk_texts rest
  | _ :: rest => chunk_texts rest
  end.

(** A statement of the [try] block after [onStart]: it records calls of
    [onMessage] only, which follow the accumulation of [fullText], and, when
    it returns from [stream], one last call of [onComplete] with the text
    that is returned. *)
Definition orderly {A : Type} (m : UtilsStream.M JSValue A) : Prop :=
  forall st st' c,
    m st = (st', c) ->
    exists msgs,
      (if UtilsStream.onMessage callbacks
       then running (UtilsStream.st_fullText st) msgs (UtilsStream.st_fullText st')
       else msgs = [])
      /\ match c with
         | UtilsStream.Return r =>
             UtilsStream.st_calls st'
             = (UtilsStream.st_calls st ++ msgs
                ++ (if UtilsStream.onComplete callbacks
                    then [UtilsStream.OnComplete (UtilsStream.fullText r)]
                    else []))%list
             /\ UtilsStream.fullText r = UtilsStream.st_fullText st'
         | _ => UtilsStream.st_calls st' = (UtilsStream.st_calls st ++ msgs)%list
         end.

End WithPlatform.

End StreamTrace.

(** * Properties of the request pipeline *)

Lemma envelope_json_larger (res : ApiResponse json) :
  json_size (data res) < json_size (envelope_json res).
Proof.
  unfold envelope_json. cbn [json_size]. lia.
Qed.

Lemma envelope_json_not_data (res : ApiResponse json) :
  envelope_json res <> data res.
Proof.
  intros H. pose proof (envelope_json_larger res) as L.
  rewrite H in L. lia.
Qed.

(** C1 (amended).  A response whose code differs from the effective
    [successCode] (the check being enabled) makes [request] reject with the
    envelope, and at most one hook is called: [handleBackendError(code,
    message)] when it is registered; otherwise [handleGlobalMessage] with
    [message || "请求失败，业务码：{code}"] when [showGlobalMessage] is true and
    that handler is registered; otherwise none.  Both variants. *)
Theorem business_failure_rejects_with_at_most_one_hook
    (T : Type) (h : RequestHandlers) (axiosConfig config : RequestConfig) (body : ApiResponse T) :
  let errorMessage :=
    JS.or_string (message body)
      ("请求失败，业务码：" ++ JS.Number_toString (code body)) in
  let described (c : RequestConfig) : list HookCall :=
    if handleBackendError h then [BackendError (code body) (message body)]
    else if JS.truthy_flag (showGlobalMessage c) && handleGlobalMessage h
         then [GlobalMessage errorMessage]
         else [] in
  (JS.strict_eq (successCode (SrcRequest.requestOnFulfilled h (mergeConfig axiosConfig config))) (code body) = false ->
   SrcRequest.request h axiosConfig config (Responded body)
   = (described (SrcRequest.requestOnFulfilled h (mergeConfig axiosConfig config)), Reject (BusinessFailure body)))
  /\ (JS.truthy_flag (enableCodeCheck (UtilsRequest.requestOnFulfilled h (mergeConfig axiosConfig config))) = true ->
      JS.strict_eq (successCode (UtilsRequest.requestOnFulfilled h (mergeConfig axiosConfig config))) (code body) = false ->
      UtilsRequest.request h axiosConfig config (Responded body)
      = (described (UtilsRequest.requestOnFulfilled h (mergeConfig axiosConfig config)), Reject (BusinessFailure body)))
  /\ (forall c, length (described c) <= 1).
Proof.
  intros errorMessage described. split; [| split].
  - intros Hcode. unfold SrcRequest.request, SrcRequest.responseOnFulfilled.
    cbn [resp_config resp_data]. rewrite Hcode. cbn [negb]. unfold described.
    destruct (handleBackendError h); [reflexivity |].
    destruct (JS.truthy_flag (showGlobalMessage _)), (handleGlobalMessage h);
      reflexivity.
  - intros Hcheck Hcode. unfold UtilsRequest.request, UtilsRequest.responseOnFulfilled.
    cbn [resp_config resp_data]. rewrite Hcheck, Hcode. cbn [negb]. unfold described.
    destruct (handleBackendError h); [reflexivity |].
    destruct (JS.truthy_flag (showGlobalMessage _)), (handleGlobalMessage h);
      reflexivity.
  - intros c. unfold described.
    destruct (handleBackendError h); [cbn; lia |].
    destruct (_ && _); cbn; lia.
Qed.

(** C1, witness: the default config, a registered [handleBackendError] and
    the business code 40001. *)
Lemma business_failure_rejects_with_at_most_one_hook_witness :
  SrcRequest.request (mkHandlers None true true) (mkConfig None None None None)
    (mkConfig (Some "/user") None None None) (Responded (mkApi 40001 "token expired" tt))
  = ([BackendError 40001 "token expired"],
     Reject (BusinessFailure (mkApi 40001 "token expired" tt)))
  /\ UtilsRequest.request (mkHandlers None true true) (mkConfig None None None None)
       (mkConfig (Some "/user") None None None) (Responded (mkApi 40001 "token expired" tt))
     = ([BackendError 40001 "token expired"],
        Reject (BusinessFailure (mkApi 40001 "token expired" tt))).
Proof.
  pose proof (business_failure_rejects_with_at_most_one_hook unit
                (mkHandlers None true true) (mkConfig None None None None)
                (mkConfig (Some "/user") None None None)
                (mkApi 40001 "token expired" tt)) as [Hsrc [Hutils _]].
  split.
  - apply Hsrc. reflexivity.
  - apply Hutils; reflexivity.
Defined.

(** C1 as stated fails: with no [handleBackendError] and
    [showGlobalMessage: false] a business failure rejects and calls no hook at
    all, in both variants, although [handleGlobalMessage] is registered. *)
Lemma business_failure_without_any_hook :
  let h := mkHandlers None true false in
  let axiosConfig := mkConfig None None None None in
  let config := mkConfig (Some "/user") (Some false) None None in
  let body := mkApi 40001 "token expired" tt in
  JS.truthy_flag (enableCodeCheck (UtilsRequest.requestOnFulfilled h (mergeConfig axiosConfig config))) = true
  /\ JS.strict_eq (successCode (UtilsRequest.requestOnFulfilled h (mergeConfig axiosConfig config))) (code body) = false
  /\ UtilsRequest.request h axiosConfig config (Responded body) = ([], Reject (BusinessFailure body))
  /\ SrcRequest.request h axiosConfig config (Responded body) = ([], Reject (BusinessFailure body))
  /\ length (fst (UtilsRequest.request h axiosConfig config (Responded body))) <> 1
  /\ length (fst (SrcRequest.request h axiosConfig config (Responded body))) <> 1.
Proof.
  cbv zeta. repeat split; try reflexivity; vm_compute; discriminate.
Qed.

(** C6.  A response whose code equals the effective [successCode], or any
    response when the later variant runs with [enableCodeCheck] off, makes
    [request] resolve, with [data] in the earlier variant and with the
    envelope in the later one, and no hook is called. *)
Theorem business_success_resolves_without_hooks
    (T : Type) (h : RequestHandlers) (axiosConfig config : RequestConfig) (body : ApiResponse T) :
  (JS.strict_eq (successCode (SrcRequest.requestOnFulfilled h (mergeConfig axiosConfig config))) (code body) = true ->
   SrcRequest.request h axiosConfig config (Responded body) = ([], Resolve (data body)))
  /\ (JS.truthy_flag (enableCodeCheck (UtilsRequest.requestOnFulfilled h (mergeConfig axiosConfig config))) = true ->
      JS.strict_eq (successCode (UtilsRequest.requestOnFulfilled h (mergeConfig axiosConfig config))) (code body) = true ->
      UtilsRequest.request h axiosConfig config (Responded body) = ([], Resolve body))
  /\ (JS.truthy_flag (enableCodeCheck (UtilsRequest.requestOnFulfilled h (mergeConfig axiosConfig config))) = false ->
      UtilsRequest.request h axiosConfig config (Responded body) = ([], Resolve body)).
Proof.
  split; [| split].
  - intros Hcode. unfold SrcRequest.request, SrcRequest.responseOnFulfilled.
    cbn [resp_config resp_data]. now rewrite Hcode.
  - intros Hcheck Hcode. unfold UtilsRequest.request, UtilsRequest.responseOnFulfilled.
    cbn [resp_config resp_data]. now rewrite Hcheck, Hcode.
  - intros Hcheck. unfold UtilsRequest.request, UtilsRequest.responseOnFulfilled.
    cbn [resp_config resp_data]. now rewrite Hcheck.
Qed.

(** C6, witness: code 10000 under the default config, and code 7 with
    [enableCodeCheck: false]. *)
Lemma business_success_resolves_without_hooks_witness :
  SrcRequest.request (mkHandlers None true true) (mkConfig None None None None)
    (mkConfig (Some "/user") None None None) (Responded (mkApi 10000 "ok" 5%Z))
  = ([], Resolve 5%Z)
  /\ UtilsRequest.request (mkHandlers None true true) (mkConfig None None None None)
       (mkConfig (Some "/user") None None None) (Responded (mkApi 10000 "ok" 5%Z))
     = ([], Resolve (mkApi 10000 "ok" 5%Z))
  /\ UtilsRequest.request (mkHandlers None true true) (mkConfig None None None None)
       (mkConfig (Some "/user") None None (Some false)) (Responded (mkApi 7 "odd" 5%Z))
     = ([], Resolve (mkApi 7 "odd" 5%Z)).
Proof.
  pose proof (business_success_resolves_without_hooks Z (mkHandlers None true true)
                (mkConfig None None None None)
                (mkConfig (Some "/user") None None None) (mkApi 10000 "ok" 5%Z))
    as [Hsrc [Hutils _]].
  pose proof (business_success_resolves_without_hooks Z (mkHandlers None true true)
                (mkConfig None None None None)
                (mkConfig (Some "/user") None None (Some false)) (mkApi 7 "odd" 5%Z))
    as [_ [_ Hoff]].
  split; [| split].
  - apply Hsrc. reflexivity.
  - apply Hutils; reflexivity.
  - apply Hoff. reflexivity.
Defined.

(** C7.  On one and the same successful response the earlier variant resolves
    with [res.data] and the later variant with [res] itself, and these are
    different JSON values. *)
Theorem variants_differ_on_success (h : RequestHandlers) (response : AxiosResponse json) :
  JS.strict_eq (successCode (resp_config response)) (code (resp_data response)) = true ->
  SrcRequest.responseOnFulfilled h response = ([], Resolve (data (resp_data response)))
  /\ UtilsRequest.responseOnFulfilled h response = ([], Resolve (resp_data response))
  /\ envelope_json (resp_data response) <> data (resp_data response).
Proof.
  intros Hcode. split; [| split].
  - unfold SrcRequest.responseOnFulfilled. now rewrite Hcode.
  - unfold UtilsRequest.responseOnFulfilled. rewrite Hcode.
    now destruct (JS.truthy_flag _).
  - apply envelope_json_not_data.
Qed.

(** C7, witness: the envelope [{ code: 10000, message: "ok", data: [1] }]. *)
Lemma variants_differ_on_success_witness :
  SrcRequest.responseOnFulfilled (mkHandlers None true true)
    (mkResponse (mkApi 10000 "ok" (JArr [JNum 1])) UtilsRequest.defaultConfig)
  = ([], Resolve (JArr [JNum 1]))
  /\ UtilsRequest.responseOnFulfilled (mkHandlers None true true)
       (mkResponse (mkApi 10000 "ok" (JArr [JNum 1])) UtilsRequest.defaultConfig)
     = ([], Resolve (mkApi 10000 "ok" (JArr [JNum 1])))
  /\ envelope_json (mkApi 10000 "ok" (JArr [JNum 1])) <> JArr [JNum 1].
Proof.
  apply (variants_differ_on_success (mkHandlers None true true)
           (mkResponse (mkApi 10000 "ok" (JArr [JNum 1])) UtilsRequest.defaultConfig)).
  reflexivity.
Defined.

(** The two variants share the response-rejected interceptor. *)
Lemma responseOnRejected_same (A : Type) (h : RequestHandlers) (error : AxiosError) :
  SrcRequest.responseOnRejected (A := A) h error
  = UtilsRequest.responseOnRejected (A := A) h error.
Proof. reflexivity. Qed.

(** The interceptor, once the message is known. *)
Lemma responseOnRejected_message (A : Type) (h : RequestHandlers)
    (error : AxiosError) (m : string) :
  UtilsRequest.errorMessageOf error = m ->
  UtilsRequest.responseOnRejected (A := A) h error
  = (if wants_global_message (err_config error) && handleGlobalMessage h
     then [GlobalMessage m] else [],
     Reject (with_message error m)).
Proof.
  intros <-. unfold UtilsRequest.responseOnRejected.
  destruct (wants_global_message _), (handleGlobalMessage h); reflexivity.
Qed.

(** C8 (amended).  The response-rejected interceptor of both variants
    resolves the message by the fixed table, with the texts of the source:
    cancelled -> "请求已取消"; 401 -> "未授权，请重新登录"; 403 -> "拒绝访问";
    404 -> "请求地址不存在: {url}"; 500 -> "服务器内部错误"; any other status ->
    "HTTP错误: {status}"; no response but a request -> "网络错误，无法连接到服务器";
    otherwise "未知错误".  It passes the message to [handleGlobalMessage] when
    [showGlobalMessage] is true and the handler is registered, and rejects
    with the error object whose [message] is that text. *)
Theorem transport_failure_message_table
    (A : Type) (h : RequestHandlers) (config : option RequestConfig)
    (request : bool) (old : string) :
  let settle (error : AxiosError) (m : string)
    : list HookCall * Settled A AxiosError :=
    (if wants_global_message config && handleGlobalMessage h
     then [GlobalMessage m] else [],
     Reject (with_message error m)) in
  let http (st : Z) (u : option string) : AxiosError :=
    mkError false config (Some (mkErrResponse st u)) request old in
  (forall error, SrcRequest.responseOnRejected (A := A) h error
                 = UtilsRequest.responseOnRejected h error)
  /\ (forall response,
        UtilsRequest.responseOnRejected h (mkError true config response request old)
        = settle (mkError true config response request old) "请求已取消")
  /\ (forall u, UtilsRequest.responseOnRejected h (http 401%Z u)
                = settle (http 401%Z u) "未授权，请重新登录")
  /\ (forall u, UtilsRequest.responseOnRejected h (http 403%Z u)
                = settle (http 403%Z u) "拒绝访问")
  /\ (forall u, UtilsRequest.responseOnRejected h (http 404%Z u)
                = settle (http 404%Z u) ("请求地址不存在: " ++ JS.template u))
  /\ (forall u, UtilsRequest.responseOnRejected h (http 500%Z u)
                = settle (http 500%Z u) "服务器内部错误")
  /\ (forall st u,
        st <> 401%Z -> st <> 403%Z -> st <> 404%Z -> st <> 500%Z ->
        UtilsRequest.responseOnRejected h (http st u)
        = settle (http st u) ("HTTP错误: " ++ JS.Number_toString st))
  /\ UtilsRequest.responseOnRejected h (mkError false config None true old)
     = settle (mkError false config None true old) "网络错误，无法连接到服务器"
  /\ UtilsRequest.responseOnRejected h (mkError false config None false old)
     = settle (mkError false config None false old) "未知错误".
Proof.
  intros settle http.
  split; [intros; reflexivity |].
  repeat split; intros; apply responseOnRejected_message; try reflexivity.
  unfold UtilsRequest.errorMessageOf, http. cbn [isCancel err_response status].
  repeat match goal with
         | |- context [(st =? ?k)%Z] =>
             destruct (Z.eqb_spec st k); [contradiction |]
         end.
  reflexivity.
Qed.

(** C8, witness: status 418 on a request for [/teapot], with
    [showGlobalMessage: true] and a registered [handleGlobalMessage]. *)
Lemma transport_failure_message_table_witness :
  UtilsRequest.responseOnRejected (A := unit) (mkHandlers None true false)
    (mkError false (Some (mkConfig (Some "/teapot") (Some true) None None))
       (Some (mkErrResponse 418 (Some "/teapot"))) true "Request failed")
  = ([GlobalMessage "HTTP错误: 418"],
     Reject (mkError false (Some (mkConfig (Some "/teapot") (Some true) None None))
               (Some (mkErrResponse 418 (Some "/teapot"))) true "HTTP错误: 418")).
Proof.
  pose proof (transport_failure_message_table unit (mkHandlers None true false)
                (Some (mkConfig (Some "/teapot") (Some true) None None))
                true "Request failed") as [_ [_ [_ [_ [_ [_ [Hother _]]]]]]].
  apply (Hother 418%Z (Some "/teapot")); lia.
Defined.

(** C8 as stated fails: the message of a cancelled request is the text of the
    source, not "request cancelled"; likewise for a 500. *)
Lemma transport_failure_message_is_not_english :
  let cancelled :=
    mkError true (Some (mkConfig (Some "/user") (Some true) None None)) None true "canceled" in
  let http500 :=
    mkError false (Some (mkConfig (Some "/user") (Some true) None None))
      (Some (mkErrResponse 500 (Some "/user"))) true "Request failed" in
  UtilsRequest.responseOnRejected (A := unit) (mkHandlers None true false) cancelled
  = ([GlobalMessage "请求已取消"], Reject (with_message cancelled "请求已取消"))
  /\ SrcRequest.responseOnRejected (A := unit) (mkHandlers None true false) cancelled
     = ([GlobalMessage "请求已取消"], Reject (with_message cancelled "请求已取消"))
  /\ "请求已取消" <> "request cancelled"
  /\ UtilsRequest.responseOnRejected (A := unit) (mkHandlers None true false) http500
     = ([GlobalMessage "服务器内部错误"], Reject (with_message http500 "服务器内部错误"))
  /\ "服务器内部错误" <> "internal server error".
Proof.
  cbv zeta. repeat split; try reflexivity; discriminate.
Qed.

(** * Properties of the stream consumer *)

Section StreamProperties.

Context {JSValue : Type}.
Variable JSON_parse : string -> option JSValue.
Variable ToBoolean : JSValue -> bool.
Variable ToString : JSValue -> string.
Variable options : UtilsStream.StreamRequestOptions JSValue.
Variable callbacks : UtilsStream.StreamCallbacks.

Local Notation State := (UtilsStream.State JSValue).
Local Notation mkState := UtilsStream.mkState.
Local Notation Normal := UtilsStream.Normal.
Local Notation Return := UtilsStream.Return.
Local Notation Throw := UtilsStream.Throw.
Local Notation process_line :=
  (UtilsStream.process_line JSON_parse ToBoolean ToString options callbacks).
Local Notation for_lines :=
  (UtilsStream.for_lines JSON_parse ToBoolean ToString options callbacks).
Local Notation read_loop :=
  (UtilsStream.read_loop JSON_parse ToBoolean ToString options callbacks).
Local Notation try_block :=
  (UtilsStream.try_block JSON_parse ToBoolean ToString options callbacks).
Local Notation stream :=
  (UtilsStream.stream JSON_parse ToBoolean ToString options callbacks).
Local Notation started := (@UtilsStream.started JSValue callbacks).
Local Notation onMessage := (UtilsStream.onMessage callbacks).
Local Notation onComplete := (UtilsStream.onComplete callbacks).
Local Notation onError := (UtilsStream.onError callbacks).
Local Notation onStart := (UtilsStream.onStart callbacks).

(** [st] after [fullText += text] and the calls [evs]. *)
Local Notation after st text evs :=
  (mkState (UtilsStream.st_fullText st ++ text)
           (UtilsStream.st_calls st ++ evs)%list
           (UtilsStream.st_reads st) (UtilsStream.st_signals st)).

Local Notation when b e := (if b then [e] else []).

Ltac unfold_ops :=
  unfold UtilsStream.read, UtilsStream.process_line, UtilsStream.message_,
    UtilsStream.complete_, UtilsStream.bind, UtilsStream.ret,
    UtilsStream.return_, UtilsStream.throw, UtilsStream.get_fullText,
    UtilsStream.append, UtilsStream.call, UtilsStream.count_read,
    UtilsStream.abort_external in *.

Ltac simpl_state :=
  cbn [UtilsStream.st_fullText UtilsStream.st_calls UtilsStream.st_reads
       UtilsStream.st_signals fst snd] in *.

Lemma state_after_nothing (st : State) : after st "" [] = st.
Proof.
  destruct st as [text calls r sg]. cbn.
  f_equal; [| apply app_nil_r].
  induction text; cbn; congruence.
Qed.

(** A line that trims to nothing is skipped. *)
Lemma process_line_blank (line : string) (st : State) :
  Str.trim line = "" -> process_line line st = (st, Normal tt).
Proof.
  intros H. unfold_ops. now rewrite H.
Qed.

(** A line that does not start with [data: ] is appended as it is. *)
Lemma process_line_plain (line : string) (st : State) :
  Str.trim line <> "" ->
  Str.startsWith "data: " line = false ->
  process_line line st
  = (after st line (when onMessage
                      (UtilsStream.OnMessage (UtilsStream.CStr line)
                         (UtilsStream.st_fullText st ++ line))),
     Normal tt).
Proof.
  intros Hblank Hprefix. unfold_ops.
  apply String.eqb_neq in Hblank. rewrite Hblank, Hprefix. cbn.
  destruct onMessage; cbn; [reflexivity |].
  now rewrite app_nil_r.
Qed.

(** The sentinel line. *)
Lemma process_line_done (line : string) (st : State) :
  Str.trim line <> "" ->
  Str.startsWith "data: " line = true ->
  Str.trim (Str.slice 6 line) = "[DONE]" ->
  process_line line st
  = (after st "" (when onComplete (UtilsStream.OnComplete (UtilsStream.st_fullText st))),
     Return {| UtilsStream.fullText := UtilsStream.st_fullText st;
               UtilsStream.abort := UtilsStream.ControllerAbort |}).
Proof.
  intros Hblank Hprefix Hdone. unfold_ops.
  apply String.eqb_neq in Hblank. rewrite Hblank, Hprefix, Hdone. cbn.
  destruct onComplete; cbn.
  - destruct st as [text calls r sg]; cbn. f_equal. f_equal.
    induction text; cbn; congruence.
  - now rewrite state_after_nothing.
Qed.

Lemma process_line_json (line : string) (parsed : JSValue) (st : State) :
  Str.trim line <> "" ->
  Str.startsWith "data: " line = true ->
  Str.trim (Str.slice 6 line) <> "[DONE]" ->
  JSON_parse (Str.trim (Str.slice 6 line)) = Some parsed ->
  process_line line st
  = if UtilsStream.content_truthy ToBoolean (UtilsStream.content_of options parsed)
    then (after st (UtilsStream.content_string ToString (UtilsStream.content_of options parsed))
            (when onMessage
               (UtilsStream.OnMessage (UtilsStream.content_of options parsed)
                  (UtilsStream.st_fullText st
                   ++ UtilsStream.content_string ToString
                        (UtilsStream.content_of options parsed)))),
          Normal tt)
    else (st, Normal tt).
Proof.
  intros Hblank Hprefix Hdone Hparse. unfold_ops.
  apply String.eqb_neq in Hblank, Hdone. rewrite Hblank, Hprefix, Hdone, Hparse.
  destruct (UtilsStream.content_truthy _ _); [| reflexivity]. cbn.
  destruct onMessage; cbn; [reflexivity |].
  now rewrite app_nil_r.
Qed.

Lemma process_line_text (line : string) (st : State) :
  Str.trim line <> "" ->
  Str.startsWith "data: " line = true ->
  Str.trim (Str.slice 6 line) <> "[DONE]" ->
  JSON_parse (Str.trim (Str.slice 6 line)) = None ->
  process_line line st
  = (after st (Str.trim (Str.slice 6 line))
       (when onMessage
          (UtilsStream.OnMessage (UtilsStream.CStr (Str.trim (Str.slice 6 line)))
             (UtilsStream.st_fullText st ++ Str.trim (Str.slice 6 line)))),
     Normal tt).
Proof.
  intros Hblank Hprefix Hdone Hparse. unfold_ops.
  apply String.eqb_neq in Hblank, Hdone. rewrite Hblank, Hprefix, Hdone, Hparse. cbn.
  destruct onMessage; cbn; [reflexivity |].
  now rewrite app_nil_r.
Qed.

Lemma append_empty (s : string) : s ++ "" = s.
Proof. induction s; cbn; congruence. Qed.

Lemma append_assoc (a b c : string) : (a ++ b) ++ c = a ++ b ++ c.
Proof. induction a; cbn; congruence. Qed.

(** What one line does to [fullText] and to the recorded calls; it reads
    neither the number of reads nor the signals, and it never throws. *)
Lemma process_line_effect (line : string) (text0 : string)
    (calls0 : list (UtilsStream.Event JSValue)) :
  exists text evs c,
    (forall r sg,
        process_line line (mkState text0 calls0 r sg)
        = (mkState (text0 ++ text) (calls0 ++ evs) r sg, c))
    /\ (forall e, c <> Throw e)
    /\ filter UtilsStream.is_OnError evs = []
    /\ ((forall r, c <> Return r) -> filter UtilsStream.is_OnComplete evs = []).
Proof.
  destruct (String.eqb_spec (Str.trim line) "") as [Hblank | Hblank].
  { exists "", [], (Normal tt). repeat split; try discriminate.
    intros r sg. rewrite process_line_blank by assumption.
    now rewrite append_empty, app_nil_r. }
  destruct (Str.startsWith "data: " line) eqn:Hprefix.
  2:{ eexists _, _, _. split; [| split; [| split]].
      - intros r sg. rewrite process_line_plain by assumption. simpl_state. reflexivity.
      - discriminate.
      - now destruct onMessage.
      - now destruct onMessage. }
  destruct (String.eqb_spec (Str.trim (Str.slice 6 line)) "[DONE]") as [Hdone | Hdone].
  { eexists _, _, _. split; [| split; [| split]].
    - intros r sg. rewrite process_line_done by assumption. simpl_state. reflexivity.
    - discriminate.
    - now destruct onComplete.
    - intros H. exfalso. eapply H. reflexivity. }
  destruct (JSON_parse (Str.trim (Str.slice 6 line))) as [parsed |] eqn:Hparse.
  - destruct (UtilsStream.content_truthy ToBoolean (UtilsStream.content_of options parsed))
      eqn:Htruthy.
    + eexists _, _, _. split; [| split; [| split]].
      * intros r sg. rewrite (process_line_json line parsed) by assumption.
        rewrite Htruthy. simpl_state. reflexivity.
      * discriminate.
      * now destruct onMessage.
      * now destruct onMessage.
    + exists "", [], (Normal tt). repeat split; try discriminate.
      intros r sg. rewrite (process_line_json line parsed) by assumption.
      rewrite Htruthy. simpl_state. now rewrite append_empty, app_nil_r.
  - eexists _, _, _. split; [| split; [| split]].
    + intros r sg. rewrite process_line_text by assumption. simpl_state. reflexivity.
    + discriminate.
    + now destruct onMessage.
    + now destruct onMessage.
Qed.

Lemma for_lines_effect (lines : list string) :
  forall (text0 : string) (calls0 : list (UtilsStream.Event JSValue)),
  exists text evs c,
    (forall r sg,
        for_lines lines (mkState text0 calls0 r sg)
        = (mkState (text0 ++ text) (calls0 ++ evs) r sg, c))
    /\ (forall e, c <> Throw e)
    /\ filter UtilsStream.is_OnError evs = []
    /\ ((forall r, c <> Return r) -> filter UtilsStream.is_OnComplete evs = []).
Proof.
  induction lines as [| line rest IH]; intros text0 calls0.
  - exists "", [], (Normal tt). repeat split; try discriminate.
    intros r sg. cbn. unfold UtilsStream.ret. now rewrite append_empty, app_nil_r.
  - destruct (process_line_effect line text0 calls0)
      as (text1 & evs1 & c1 & Hrun1 & Hthrow1 & Herr1 & Hcomp1).
    destruct c1 as [[] | r1 | e1].
    + destruct (IH (text0 ++ text1) (calls0 ++ evs1)%list)
        as (text2 & evs2 & c2 & Hrun2 & Hthrow2 & Herr2 & Hcomp2).
      exists (text1 ++ text2), (evs1 ++ evs2)%list, c2.
      split; [| split; [| split]].
      * intros r sg. cbn. unfold UtilsStream.bind. rewrite Hrun1, Hrun2.
        now rewrite append_assoc, app_assoc.
      * assumption.
      * rewrite filter_app, Herr1, Herr2. reflexivity.
      * intros H. rewrite filter_app, Hcomp1, Hcomp2; [reflexivity | assumption |].
        discriminate.
    + exists text1, evs1, (Return r1). split; [| split; [| split]]; try assumption.
      intros r sg. cbn. unfold UtilsStream.bind. now rewrite Hrun1.
    + now destruct (Hthrow1 e1).
Qed.

(** Line processing is independent of the read counter and of the signals. *)
Lemma for_lines_frame (lines : list string) (text0 : string)
    (calls0 : list (UtilsStream.Event JSValue)) (r0 : nat)
    (sg0 : UtilsStream.Signals) (c : UtilsStream.Completion unit) (st1 : State) :
  for_lines lines (mkState text0 calls0 r0 sg0) = (st1, c) ->
  forall r sg,
    for_lines lines (mkState text0 calls0 r sg)
    = (mkState (UtilsStream.st_fullText st1) (UtilsStream.st_calls st1) r sg, c).
Proof.
  intros Hrun r sg.
  destruct (for_lines_effect lines text0 calls0) as (text & evs & c' & Heff & _).
  rewrite Heff in Hrun. injection Hrun as <- <-.
  now rewrite Heff.
Qed.

Lemma for_lines_app (l1 l2 : list string) (st : State) :
  for_lines (l1 ++ l2) st
  = UtilsStream.bind (for_lines l1) (fun _ => for_lines l2) st.
Proof.
  revert st. induction l1 as [| line rest IH]; intros st.
  - reflexivity.
  - cbn. unfold UtilsStream.bind in *.
    destruct (process_line line st) as [st1 [[] | r | e]]; [apply IH | reflexivity ..].
Qed.

Lemma for_lines_frame_state (lines : list string) (st st1 : State)
    (c : UtilsStream.Completion unit) :
  for_lines lines st = (st1, c) ->
  forall r sg,
    for_lines lines
      (mkState (UtilsStream.st_fullText st) (UtilsStream.st_calls st) r sg)
    = (mkState (UtilsStream.st_fullText st1) (UtilsStream.st_calls st1) r sg, c).
Proof.
  destruct st as [text0 calls0 r0 sg0]. intros Hrun r sg.
  apply (for_lines_frame _ _ _ _ _ _ _ Hrun).
Qed.

Lemma started_state :
  started
  = mkState "" (when onStart UtilsStream.OnStart) 0
      {| UtilsStream.external := None; UtilsStream.controller := None |}.
Proof.
  unfold UtilsStream.started, UtilsStream.call, UtilsStream.initial.
  now destruct onStart.
Qed.

Lemma requestSignal_fresh :
  UtilsStream.requestSignal options
    {| UtilsStream.external := None; UtilsStream.controller := None |} = None.
Proof.
  unfold UtilsStream.requestSignal. now destruct (UtilsStream.signal options).
Qed.

(** A read that answers a chunk while the request signal is not aborted. *)
Lemma read_loop_value (chunk : string) (rest : list UtilsStream.Tick)
    (text0 : string) (calls0 : list (UtilsStream.Event JSValue)) (r : nat)
    (sg : UtilsStream.Signals) :
  UtilsStream.requestSignal options sg = None ->
  read_loop (UtilsStream.Reads (UtilsStream.Value chunk) :: rest)
    (mkState text0 calls0 r sg)
  = UtilsStream.bind (for_lines (Str.split_lines chunk)) (fun _ => read_loop rest)
      (mkState text0 calls0 (S r) sg).
Proof.
  intros Hsig. cbn [UtilsStream.read_loop].
  unfold UtilsStream.read, UtilsStream.count_read.
  unfold UtilsStream.bind at 1 2. simpl_state. now rewrite Hsig.
Qed.

(** Reading chunks amounts to processing their lines in order, chunk after
    chunk, as long as no line returns. *)
Lemma read_loop_values (chunks : list string) :
  forall (rest : list UtilsStream.Tick) (text0 : string)
         (calls0 : list (UtilsStream.Event JSValue)) (r : nat)
         (sg : UtilsStream.Signals) (st1 : State),
    UtilsStream.requestSignal options sg = None ->
    for_lines (flat_map Str.split_lines chunks) (mkState text0 calls0 r sg)
    = (st1, Normal tt) ->
    read_loop (UtilsStream.values chunks ++ rest) (mkState text0 calls0 r sg)
    = read_loop rest
        (mkState (UtilsStream.st_fullText st1) (UtilsStream.st_calls st1)
           (length chunks + r) sg).
Proof.
  induction chunks as [| chunk chunks IH]; intros rest text0 calls0 r sg st1 Hsig Hrun.
  - cbn in Hrun. unfold UtilsStream.ret in Hrun. injection Hrun as <-. reflexivity.
  - cbn [flat_map] in Hrun. rewrite for_lines_app in Hrun.
    unfold UtilsStream.bind in Hrun.
    destruct (for_lines (Str.split_lines chunk) (mkState text0 calls0 r sg))
      as [st' [[] | r' | e']] eqn:Hchunk; try discriminate.
    cbn [UtilsStream.values map app]. fold (UtilsStream.values chunks).
    rewrite read_loop_value by assumption.
    unfold UtilsStream.bind.
    rewrite (for_lines_frame _ _ _ _ _ _ _ Hchunk (S r) sg).
    pose proof (for_lines_frame_state _ _ _ _ Hrun (S r) sg) as Hrest.
    rewrite (IH rest _ _ _ _ _ Hsig Hrest). simpl_state.
    do 2 f_equal. cbn [length]. lia.
Qed.

Lemma try_block_reading (status : Z) (ticks : list UtilsStream.Tick) :
  try_block (UtilsStream.Fetched (UtilsStream.mkFetchResponse true status (Some ticks)))
    UtilsStream.initial
  = UtilsStream.bind (read_loop ticks)
      (fun _ =>
         UtilsStream.bind (UtilsStream.complete_ callbacks)
           (fun _ =>
              UtilsStream.bind (@UtilsStream.get_fullText JSValue)
                (fun full =>
                   UtilsStream.return_ JSValue
                     {| UtilsStream.fullText := full;
                        UtilsStream.abort := UtilsStream.ControllerAbort |})))
      (started).
Proof.
  unfold UtilsStream.try_block, UtilsStream.started.
  unfold UtilsStream.bind at 1. unfold UtilsStream.call at 1.
  destruct onStart; reflexivity.
Qed.

(** C2.  When the chunks read so far have not ended the stream and a
    non-blank line of the next chunk starts with [data: ] and its trimmed
    payload is [[DONE]], [onComplete(fullText)] is called and the call
    resolves with [{ fullText, abort }]; the lines after it and the rest of
    the body are not looked at, and [reader.read()] has been called once per
    chunk read so far. *)
Theorem done_sentinel_completes_without_further_reads
    (before : list string) (chunk : string) (lines1 lines2 : list string)
    (line : string) (rest : list UtilsStream.Tick) (status : Z) (st1 st2 : State) :
  for_lines (flat_map Str.split_lines before) (started)
  = (st1, Normal tt) ->
  Str.split_lines chunk = (lines1 ++ line :: lines2)%list ->
  for_lines lines1 st1 = (st2, Normal tt) ->
  Str.trim line <> "" ->
  Str.startsWith "data: " line = true ->
  Str.trim (Str.slice 6 line) = "[DONE]" ->
  stream (UtilsStream.Fetched
            (UtilsStream.mkFetchResponse true status
               (Some (UtilsStream.values before
                      ++ UtilsStream.Reads (UtilsStream.Value chunk) :: rest)%list)))
  = UtilsStream.mkOutcome
      (Resolve {| UtilsStream.fullText := UtilsStream.st_fullText st2;
                  UtilsStream.abort := UtilsStream.ControllerAbort |})
      (UtilsStream.st_calls st2
       ++ when onComplete (UtilsStream.OnComplete (UtilsStream.st_fullText st2)))%list
      (S (length before))
      {| UtilsStream.external := None; UtilsStream.controller := None |}.
Proof.
  intros Hbefore Hsplit Hlines1 Hblank Hprefix Hdone.
  unfold UtilsStream.stream. rewrite try_block_reading.
  rewrite started_state in *.
  unfold UtilsStream.bind at 1.
  rewrite (read_loop_values before _ _ _ _ _ _ requestSignal_fresh Hbefore).
  rewrite read_loop_value by apply requestSignal_fresh.
  unfold UtilsStream.bind at 1.
  rewrite Hsplit, for_lines_app. unfold UtilsStream.bind at 1.
  rewrite (for_lines_frame_state _ _ _ _ Hlines1).
  cbn [UtilsStream.for_lines]. unfold UtilsStream.bind at 1.
  rewrite process_line_done by assumption. simpl_state.
  unfold UtilsStream.finish. simpl_state.
  now rewrite Nat.add_0_r.
Qed.


(** ** The error path *)

Lemma disciplined_bind (A B : Type) (m : UtilsStream.M JSValue A)
    (k : A -> UtilsStream.M JSValue B) :
  UtilsStream.disciplined m ->
  (forall a, UtilsStream.disciplined (k a)) ->
  UtilsStream.disciplined (UtilsStream.bind m k).
Proof.
  intros Hm Hk st st' c Hrun. unfold UtilsStream.bind in Hrun.
  destruct (m st) as [st1 c1] eqn:Hfirst.
  destruct (Hm _ _ _ Hfirst) as (evs1 & Hcalls1 & Herr1 & Hcomp1).
  destruct c1 as [a | r | e].
  - destruct (Hk a _ _ _ Hrun) as (evs2 & Hcalls2 & Herr2 & Hcomp2).
    exists (evs1 ++ evs2)%list. split; [| split].
    + now rewrite Hcalls2, Hcalls1, app_assoc.
    + now rewrite filter_app, Herr1, Herr2.
    + intros H. rewrite filter_app, Hcomp1, Hcomp2; [reflexivity | assumption |].
      discriminate.
  - injection Hrun as <- <-. exists evs1. split; [| split]; try assumption.
    intros H. exfalso. eapply H. reflexivity.
  - injection Hrun as <- <-. exists evs1. split; [| split]; try assumption.
    intros _. apply Hcomp1. discriminate.
Qed.

(** A statement that records no call is disciplined. *)
Lemma disciplined_silent (A : Type) (m : UtilsStream.M JSValue A) :
  (forall st, UtilsStream.st_calls (fst (m st)) = UtilsStream.st_calls st) ->
  UtilsStream.disciplined m.
Proof.
  intros Hsilent st st' c Hrun. exists []. repeat split.
  specialize (Hsilent st). rewrite Hrun in Hsilent. cbn in Hsilent.
  now rewrite app_nil_r.
Qed.

Lemma disciplined_for_lines (lines : list string) :
  UtilsStream.disciplined (for_lines lines).
Proof.
  intros [text0 calls0 r sg] st' c Hrun.
  destruct (for_lines_effect lines text0 calls0)
    as (text & evs & c' & Heff & _ & Herr & Hcomp).
  rewrite Heff in Hrun. injection Hrun as <- <-.
  exists evs. repeat split; assumption.
Qed.

Lemma disciplined_read (answer : option UtilsStream.ReadResult) :
  UtilsStream.disciplined (UtilsStream.read options answer).
Proof.
  apply disciplined_silent. intros st. unfold_ops. cbn.
  destruct (UtilsStream.requestSignal _ _); [reflexivity |].
  now destruct answer as [[chunk | e] |].
Qed.

Lemma disciplined_read_loop (ticks : list UtilsStream.Tick) :
  UtilsStream.disciplined (read_loop ticks).
Proof.
  induction ticks as [| [reason | r] rest IH]; cbn [UtilsStream.read_loop].
  - apply disciplined_bind; [apply disciplined_read |].
    intros _. now apply disciplined_silent.
  - apply disciplined_bind; [now apply disciplined_silent | intros _; exact IH].
  - apply disciplined_bind; [apply disciplined_read |].
    intros [chunk |]; [| now apply disciplined_silent].
    apply disciplined_bind; [apply disciplined_for_lines | intros _; exact IH].
Qed.

(** The end of the [try] block: [onComplete?.(fullText); return ...]. *)
Lemma disciplined_completion :
  UtilsStream.disciplined
    (UtilsStream.bind (UtilsStream.complete_ callbacks)
       (fun _ =>
          UtilsStream.bind (@UtilsStream.get_fullText JSValue)
            (fun full =>
               UtilsStream.return_ JSValue (A := Empty_set)
                 {| UtilsStream.fullText := full;
                    UtilsStream.abort := UtilsStream.ControllerAbort |}))).
Proof.
  intros st st' c Hrun. unfold_ops.
  destruct onComplete; injection Hrun as <- <-; simpl_state.
  - eexists. split; [reflexivity |]. split; [reflexivity |].
    intros H. exfalso. eapply H. reflexivity.
  - exists []. split; [now rewrite app_nil_r |]. now split.
Qed.

Lemma disciplined_try_block (w : UtilsStream.FetchResult) :
  UtilsStream.disciplined (try_block w).
Proof.
  unfold UtilsStream.try_block.
  apply disciplined_bind.
  { intros st st' c Hrun. unfold_ops.
    destruct onStart; injection Hrun as <- <-; simpl_state.
    - eexists. now repeat split.
    - exists []. now rewrite app_nil_r. }
  intros _. apply disciplined_bind.
  { destruct w; now apply disciplined_silent. }
  intros response. apply disciplined_bind.
  { destruct (negb _); now apply disciplined_silent. }
  intros _. apply disciplined_bind.
  { destruct (UtilsStream.body response); now apply disciplined_silent. }
  intros reader. apply disciplined_bind; [apply disciplined_read_loop |].
  intros _. apply disciplined_completion.
Qed.

(** Whenever [stream] rejects, the [catch] block has made the only call of
    [onError], and [onComplete] has not been called. *)
Lemma stream_rejection_calls (w : UtilsStream.FetchResult) (e : UtilsStream.Error) :
  UtilsStream.settled (stream w) = Reject e ->
  filter UtilsStream.is_OnError (UtilsStream.calls (stream w))
  = when onError (UtilsStream.OnError e)
  /\ filter UtilsStream.is_OnComplete (UtilsStream.calls (stream w)) = [].
Proof.
  unfold UtilsStream.stream.
  destruct (try_block w UtilsStream.initial) as [st c] eqn:Hrun.
  destruct (disciplined_try_block w _ _ _ Hrun) as (evs & Hcalls & Herr & Hcomp).
  cbn in Hcalls.
  destruct c as [[] | r | err]; [discriminate |].
  unfold UtilsStream.call. intros Hsettled.
  assert (filter UtilsStream.is_OnComplete evs = []) as Hnone
    by (apply Hcomp; discriminate).
  destruct onError; cbn in Hsettled |- *; injection Hsettled as ->.
  - rewrite Hcalls, !filter_app, Herr, Hnone. now split.
  - rewrite Hcalls, Herr, Hnone. now split.
Qed.

(** Once the request signal is aborted, the loop ends by throwing the abort
    reason at its next read. *)
Lemma read_loop_aborted (ticks : list UtilsStream.Tick) :
  forall (st : State) (reason : UtilsStream.Error),
    UtilsStream.requestSignal options (UtilsStream.st_signals st) = Some reason ->
    exists st', read_loop ticks st = (st', Throw reason).
Proof.
  induction ticks as [| [reason' | r] rest IH]; intros st reason Hsig;
    cbn [UtilsStream.read_loop].
  - unfold_ops. simpl_state. rewrite Hsig. eauto.
  - unfold UtilsStream.bind, UtilsStream.abort_external. apply IH. simpl_state.
    unfold UtilsStream.requestSignal in *. cbn.
    destruct (UtilsStream.signal options); [| assumption].
    now rewrite Hsig.
  - unfold_ops. simpl_state. rewrite Hsig. eauto.
Qed.

Lemma stream_read_loop_throws (status : Z) (ticks : list UtilsStream.Tick)
    (st : State) (e : UtilsStream.Error) :
  read_loop ticks started = (st, Throw e) ->
  UtilsStream.settled
    (stream (UtilsStream.Fetched (UtilsStream.mkFetchResponse true status (Some ticks))))
  = Reject e.
Proof.
  intros Hloop. unfold UtilsStream.stream. rewrite try_block_reading.
  unfold UtilsStream.bind at 1. rewrite Hloop.
  unfold UtilsStream.call. now destruct onError.
Qed.

(** C4.  Each source of error makes [stream] reject with that error: a
    rejected [fetch], a status that is not OK, a body that is not readable, a
    read that rejects, and the abort of the request signal by the caller.
    Whenever [stream] rejects with an error, [onError] has been called
    exactly once, with that error (when it is registered), and [onComplete]
    has not been called. *)
Theorem stream_error_reported_once :
  (forall e, UtilsStream.settled (stream (UtilsStream.FetchRejected e)) = Reject e)
  /\ (forall status body,
        UtilsStream.settled
          (stream (UtilsStream.Fetched (UtilsStream.mkFetchResponse false status body)))
        = Reject (UtilsStream.new_Error
                    ("HTTP error! status: " ++ JS.Number_toString status)))
  /\ (forall status,
        UtilsStream.settled
          (stream (UtilsStream.Fetched (UtilsStream.mkFetchResponse true status None)))
        = Reject (UtilsStream.new_Error "Response body is not readable"))
  /\ (forall status before e rest st1,
        for_lines (flat_map Str.split_lines before) started = (st1, Normal tt) ->
        UtilsStream.settled
          (stream (UtilsStream.Fetched
                     (UtilsStream.mkFetchResponse true status
                        (Some (UtilsStream.values before
                               ++ UtilsStream.Reads (UtilsStream.Rejects e) :: rest)%list))))
        = Reject e)
  /\ (forall status before reason rest st1,
        UtilsStream.signal options = true ->
        for_lines (flat_map Str.split_lines before) started = (st1, Normal tt) ->
        UtilsStream.settled
          (stream (UtilsStream.Fetched
                     (UtilsStream.mkFetchResponse true status
                        (Some (UtilsStream.values before
                               ++ UtilsStream.CallerAborts reason :: rest)%list))))
        = Reject reason)
  /\ (forall w e,
        UtilsStream.settled (stream w) = Reject e ->
        filter UtilsStream.is_OnError (UtilsStream.calls (stream w))
        = when onError (UtilsStream.OnError e)
        /\ filter UtilsStream.is_OnComplete (UtilsStream.calls (stream w)) = []).
Proof.
  split; [| split; [| split; [| split; [| split]]]].
  - intros e. unfold UtilsStream.stream, UtilsStream.try_block. unfold_ops.
    now destruct onStart, onError.
  - intros status body. unfold UtilsStream.stream, UtilsStream.try_block. unfold_ops.
    cbn. now destruct onStart, onError.
  - intros status. unfold UtilsStream.stream, UtilsStream.try_block. unfold_ops.
    cbn. now destruct onStart, onError.
  - intros status before e rest st1 Hbefore.
    rewrite started_state in Hbefore.
    eapply stream_read_loop_throws. rewrite started_state.
    rewrite (read_loop_values before _ _ _ _ _ _ requestSignal_fresh Hbefore).
    cbn [UtilsStream.read_loop]. unfold_ops. simpl_state.
    rewrite requestSignal_fresh. reflexivity.
  - intros status before reason rest st1 Hsignal Hbefore.
    rewrite started_state in Hbefore.
    destruct (read_loop_aborted rest
                (mkState (UtilsStream.st_fullText st1) (UtilsStream.st_calls st1)
                   (length before + 0)
                   {| UtilsStream.external := Some reason;
                      UtilsStream.controller := None |}) reason) as [st' Hloop].
    { unfold UtilsStream.requestSignal. simpl_state. now rewrite Hsignal. }
    eapply stream_read_loop_throws. rewrite started_state.
    rewrite (read_loop_values before _ _ _ _ _ _ requestSignal_fresh Hbefore).
    cbn [UtilsStream.read_loop].
    unfold UtilsStream.bind at 1. unfold UtilsStream.abort_external at 1.
    simpl_state. cbn [UtilsStream.external UtilsStream.controller].
    exact Hloop.
  - apply stream_rejection_calls.
Qed.

(** When the body ends without the sentinel, the call resolves with the text
    accumulated from the lines of the chunks, taken chunk by chunk. *)
Lemma stream_exhausted (status : Z) (chunks : list string) (st1 : State) :
  for_lines (flat_map Str.split_lines chunks) started = (st1, Normal tt) ->
  stream (UtilsStream.Fetched
            (UtilsStream.mkFetchResponse true status (Some (UtilsStream.values chunks))))
  = UtilsStream.mkOutcome
      (Resolve {| UtilsStream.fullText := UtilsStream.st_fullText st1;
                  UtilsStream.abort := UtilsStream.ControllerAbort |})
      (UtilsStream.st_calls st1
       ++ when onComplete (UtilsStream.OnComplete (UtilsStream.st_fullText st1)))%list
      (S (length chunks))
      {| UtilsStream.external := None; UtilsStream.controller := None |}.
Proof.
  intros Hlines. rewrite started_state in Hlines.
  unfold UtilsStream.stream. rewrite try_block_reading, started_state.
  unfold UtilsStream.bind at 1.
  rewrite <- (app_nil_r (UtilsStream.values chunks)).
  rewrite (read_loop_values chunks _ _ _ _ _ _ requestSignal_fresh Hlines).
  cbn [UtilsStream.read_loop]. unfold_ops. simpl_state.
  rewrite requestSignal_fresh. unfold UtilsStream.finish.
  rewrite Nat.add_0_r.
  destruct onComplete; simpl_state; [reflexivity |].
  now rewrite app_nil_r.
Qed.






(** The controller that [stream] creates is not aborted while [stream] runs:
    nothing but the returned closure refers to it. *)
Lemma read_loop_keeps_controller (ticks : list UtilsStream.Tick) :
  forall st : State,
    UtilsStream.controller (UtilsStream.st_signals (fst (read_loop ticks st)))
    = UtilsStream.controller (UtilsStream.st_signals st).
Proof.
  induction ticks as [| [reason | r] rest IH]; intros st; cbn [UtilsStream.read_loop].
  - unfold_ops. simpl_state.
    now destruct (UtilsStream.requestSignal options (UtilsStream.st_signals st)).
  - unfold UtilsStream.bind, UtilsStream.abort_external. now rewrite IH.
  - unfold UtilsStream.read, UtilsStream.count_read.
    unfold UtilsStream.bind at 1 2. simpl_state.
    destruct (UtilsStream.requestSignal options (UtilsStream.st_signals st));
      [reflexivity |].
    destruct r as [chunk | e]; [| reflexivity].
    destruct st as [text0 calls0 n sg]. simpl_state.
    destruct (for_lines_effect (Str.split_lines chunk) text0 calls0)
      as (text & evs & c & Heff & _).
    unfold UtilsStream.bind. rewrite Heff.
    destruct c as [[] | r | e]; [| reflexivity ..].
    now rewrite IH.
Qed.

Lemma stream_keeps_controller (w : UtilsStream.FetchResult) :
  UtilsStream.controller (UtilsStream.signals (stream w)) = None.
Proof.
  unfold UtilsStream.stream.
  assert (UtilsStream.controller
            (UtilsStream.st_signals (fst (try_block w UtilsStream.initial))) = None)
    as Hkeep.
  { destruct w as [[[] status [ticks |]] | e].
    - rewrite try_block_reading. unfold UtilsStream.bind at 1.
      pose proof (read_loop_keeps_controller ticks started) as Hloop.
      rewrite started_state in *. simpl_state.
      destruct (read_loop ticks _) as [st [[] | r | e]]; simpl_state;
        cbn [UtilsStream.controller] in Hloop; try assumption.
      unfold_ops. now destruct onComplete.
    - unfold UtilsStream.try_block. unfold_ops. now destruct onStart.
    - unfold UtilsStream.try_block. unfold_ops. now destruct onStart.
    - unfold UtilsStream.try_block. unfold_ops. now destruct onStart.
    - unfold UtilsStream.try_block. unfold_ops. now destruct onStart. }
  destruct (try_block w UtilsStream.initial) as [st [[] | r | err]]; simpl_state.
  - exact Hkeep.
  - unfold UtilsStream.call. now destruct onError.
Qed.

End StreamProperties.

(** * The stream consumer on concrete bodies

    The platform is [JSON]; every callback is registered unless said
    otherwise. *)

(** C2, witness: the chunk [ab] and then the sentinel; a third chunk is never
    read.  [onComplete] gets ["ab"] and the call resolves with ["ab"]. *)
Lemma done_sentinel_completes_without_further_reads_witness :
  UtilsStream.stream JSON.parse JSON.ToBoolean JSON.ToString
    (UtilsStream.mkOptions false None) (UtilsStream.mkCallbacks true true true true)
    (UtilsStream.Fetched
       (UtilsStream.mkFetchResponse true 200
          (Some (UtilsStream.values [("ab" ++ Str.newline)%string]
                 ++ UtilsStream.Reads
                      (UtilsStream.Value ("data: [DONE]" ++ Str.newline)%string)
                 :: [UtilsStream.Reads (UtilsStream.Value "late")])%list)))
  = UtilsStream.mkOutcome
      (Resolve {| UtilsStream.fullText := "ab";
                  UtilsStream.abort := UtilsStream.ControllerAbort |})
      [UtilsStream.OnStart;
       UtilsStream.OnMessage (UtilsStream.CStr "ab") "ab";
       UtilsStream.OnComplete "ab"]
      2
      {| UtilsStream.external := None; UtilsStream.controller := None |}.
Proof.
  refine (done_sentinel_completes_without_further_reads
            JSON.parse JSON.ToBoolean JSON.ToString
            (UtilsStream.mkOptions false None)
            (UtilsStream.mkCallbacks true true true true)
            ["ab" ++ Str.newline] ("data: [DONE]" ++ Str.newline)
            [] [""] "data: [DONE]"
            [UtilsStream.Reads (UtilsStream.Value "late")] 200
            (UtilsStream.mkState "ab"
               [UtilsStream.OnStart; UtilsStream.OnMessage (UtilsStream.CStr "ab") "ab"]
               0 {| UtilsStream.external := None; UtilsStream.controller := None |})
            (UtilsStream.mkState "ab"
               [UtilsStream.OnStart; UtilsStream.OnMessage (UtilsStream.CStr "ab") "ab"]
               0 {| UtilsStream.external := None; UtilsStream.controller := None |})
            _ _ _ _ _ _);
    try reflexivity.
  vm_compute. discriminate.
Defined.



(** C4, witness: the status 500, and a caller who aborts the signal it passed
    after the first chunk. *)
Lemma stream_error_reported_once_witness :
  let options := UtilsStream.mkOptions (JSValue := json) true None in
  let callbacks := UtilsStream.mkCallbacks true true true true in
  let run := UtilsStream.stream JSON.parse JSON.ToBoolean JSON.ToString options callbacks in
  let http500 := UtilsStream.Fetched (UtilsStream.mkFetchResponse false 500 None) in
  let aborted :=
    UtilsStream.Fetched
      (UtilsStream.mkFetchResponse true 200
         (Some (UtilsStream.values [("ab" ++ Str.newline)%string]
                ++ UtilsStream.CallerAborts UtilsStream.AbortError
                :: [UtilsStream.Reads (UtilsStream.Value "cd")])%list)) in
  UtilsStream.settled (run http500)
  = Reject (UtilsStream.new_Error "HTTP error! status: 500")
  /\ filter UtilsStream.is_OnError (UtilsStream.calls (run http500))
     = [UtilsStream.OnError (UtilsStream.new_Error "HTTP error! status: 500")]
  /\ filter UtilsStream.is_OnComplete (UtilsStream.calls (run http500)) = []
  /\ UtilsStream.settled (run aborted) = Reject UtilsStream.AbortError
  /\ filter UtilsStream.is_OnError (UtilsStream.calls (run aborted))
     = [UtilsStream.OnError UtilsStream.AbortError].
Proof.
  intros options callbacks run http500 aborted.
  destruct (stream_error_reported_once JSON.parse JSON.ToBoolean JSON.ToString
              options callbacks) as (_ & Hstatus & _ & _ & Habort & Hcalls).
  assert (UtilsStream.settled (run aborted) = Reject UtilsStream.AbortError) as Hrej.
  { refine (Habort 200%Z ["ab" ++ Str.newline] UtilsStream.AbortError
              [UtilsStream.Reads (UtilsStream.Value "cd")]
              (UtilsStream.mkState "ab"
                 [UtilsStream.OnStart; UtilsStream.OnMessage (UtilsStream.CStr "ab") "ab"]
                 0 {| UtilsStream.external := None; UtilsStream.controller := None |})
              _ _); reflexivity. }
  split; [exact (Hstatus 500%Z None) |].
  split; [exact (proj1 (Hcalls http500 _ (Hstatus 500%Z None))) |].
  split; [exact (proj2 (Hcalls http500 _ (Hstatus 500%Z None))) |].
  split; [exact Hrej |].
  exact (proj1 (Hcalls aborted _ Hrej)).
Defined.



(** C9 fails on the code: the line [data: ] has the empty payload, which does
    not parse, and the fallback branch calls [onMessage("", fullText)] without
    the emptiness test that the JSON branch makes. *)
Lemma empty_data_line_calls_onMessage :
  JSON.parse "" = None
  /\ UtilsStream.stream JSON.parse JSON.ToBoolean JSON.ToString
       (UtilsStream.mkOptions false None) (UtilsStream.mkCallbacks true true true true)
       (UtilsStream.Fetched
          (UtilsStream.mkFetchResponse true 200
             (Some (UtilsStream.values ["data: " ++ Str.newline]))))
     = UtilsStream.mkOutcome
         (Resolve {| UtilsStream.fullText := "";
                     UtilsStream.abort := UtilsStream.ControllerAbort |})
         [UtilsStream.OnStart;
          UtilsStream.OnMessage (UtilsStream.CStr "") "";
          UtilsStream.OnComplete ""]
         2
         {| UtilsStream.external := None; UtilsStream.controller := None |}.
Proof.
  split; reflexivity.
Qed.

(** C5 fails on the code: the closure [abort] is part of the value the promise
    resolves with, so it exists only when the read loop is over.  Here the
    body still has a chunk to deliver when the sentinel ends the call; calling
    [abort] then aborts the controller, and no [onError] follows.  When
    [options.signal] is given, the controller is not the request signal at
    all. *)
Lemma abort_handle_exists_after_the_loop_only :
  let out :=
    UtilsStream.stream JSON.parse JSON.ToBoolean JSON.ToString
      (UtilsStream.mkOptions false None) (UtilsStream.mkCallbacks true true true true)
      (UtilsStream.Fetched
         (UtilsStream.mkFetchResponse true 200
            (Some (UtilsStream.values
                     ["ab" ++ Str.newline; "data: [DONE]" ++ Str.newline; "late"])))) in
  UtilsStream.settled out
  = Resolve {| UtilsStream.fullText := "ab";
               UtilsStream.abort := UtilsStream.ControllerAbort |}
  /\ UtilsStream.calls out
     = [UtilsStream.OnStart;
        UtilsStream.OnMessage (UtilsStream.CStr "ab") "ab";
        UtilsStream.OnComplete "ab"]
  /\ UtilsStream.signals out
     = {| UtilsStream.external := None; UtilsStream.controller := None |}
  /\ UtilsStream.invoke UtilsStream.ControllerAbort (UtilsStream.signals out)
     = {| UtilsStream.external := None;
          UtilsStream.controller := Some UtilsStream.AbortError |}
  /\ UtilsStream.requestSignal (UtilsStream.mkOptions (JSValue := json) true None)
       (UtilsStream.invoke UtilsStream.ControllerAbort (UtilsStream.signals out))
     = None.
Proof.
  cbv zeta. repeat split; reflexivity.
Qed.

(** * Further properties of the request pipeline *)

Lemma errorMessageOf_not_empty (error : AxiosError) :
  UtilsRequest.errorMessageOf error <> "".
Proof.
  unfold UtilsRequest.errorMessageOf.
  destruct (isCancel error); [discriminate |].
  destruct (err_response error) as [response |].
  - repeat (match goal with
            | |- context [if ?b then _ else _] => destruct b
            end; try discriminate).
  - destruct (err_request error); discriminate.
Qed.

(** The hook calls of the two default response interceptors. *)
Lemma src_response_calls (T : Type) (h : RequestHandlers) (response : AxiosResponse T) :
  length (fst (SrcRequest.responseOnFulfilled h response)) <= 1
  /\ (forall v, snd (SrcRequest.responseOnFulfilled h response) = Resolve v ->
                fst (SrcRequest.responseOnFulfilled h response) = []).
Proof.
  unfold SrcRequest.responseOnFulfilled.
  destruct (negb _); cbn [fst snd]; [| split; [cbn; lia | reflexivity]].
  split; [| discriminate].
  destruct (handleBackendError h); [cbn; lia |].
  destruct (JS.truthy_flag _), (handleGlobalMessage h); cbn; lia.
Qed.

Lemma utils_response_calls (T : Type) (h : RequestHandlers) (response : AxiosResponse T) :
  length (fst (UtilsRequest.responseOnFulfilled h response)) <= 1
  /\ (forall v, snd (UtilsRequest.responseOnFulfilled h response) = Resolve v ->
                fst (UtilsRequest.responseOnFulfilled h response) = []).
Proof.
  unfold UtilsRequest.responseOnFulfilled.
  destruct (negb _); cbn [fst snd]; [| split; [cbn; lia | reflexivity]].
  split; [| discriminate].
  destruct (handleBackendError h); [cbn; lia |].
  destruct (JS.truthy_flag (showGlobalMessage _)), (handleGlobalMessage h); cbn; lia.
Qed.

(** X1.  Whatever the transport answers, [request] of either variant calls
    at most one hook, calls none when it resolves, and never calls
    [handleBackendError] for a transport failure. *)
Theorem request_calls_hooks_only_when_it_rejects
    (T : Type) (h : RequestHandlers) (axiosConfig config : RequestConfig) (t : Transport T) :
  (length (fst (SrcRequest.request h axiosConfig config t)) <= 1
   /\ (forall v, snd (SrcRequest.request h axiosConfig config t) = Resolve v ->
                 fst (SrcRequest.request h axiosConfig config t) = [])
   /\ (forall e c m, t = Failed e ->
                     ~ In (BackendError c m) (fst (SrcRequest.request h axiosConfig config t))))
  /\ (length (fst (UtilsRequest.request h axiosConfig config t)) <= 1
      /\ (forall v, snd (UtilsRequest.request h axiosConfig config t) = Resolve v ->
                    fst (UtilsRequest.request h axiosConfig config t) = [])
      /\ (forall e c m, t = Failed e ->
                        ~ In (BackendError c m) (fst (UtilsRequest.request h axiosConfig config t)))).
Proof.
  split.
  - unfold SrcRequest.request. destruct t as [body | e].
    + destruct (src_response_calls T h
                  (mkResponse body (SrcRequest.requestOnFulfilled h (mergeConfig axiosConfig config))))
        as [Hlen Hres].
      destruct (SrcRequest.responseOnFulfilled h _) as [calls [v | res]];
        cbn [fst snd] in *.
      * split; [exact Hlen |]. split; [intros _ _; now apply (Hres v) | discriminate].
      * split; [exact Hlen |]. split; discriminate.
    + unfold SrcRequest.responseOnRejected. cbn [fst snd].
      split; [| split; [discriminate |]].
      * destruct (wants_global_message _), (handleGlobalMessage h); cbn; lia.
      * intros e' c m _ Hin.
        destruct (wants_global_message _), (handleGlobalMessage h); cbn in Hin;
          try contradiction.
        destruct Hin as [Hin | []]. discriminate.
  - unfold UtilsRequest.request. destruct t as [body | e].
    + destruct (utils_response_calls T h
                  (mkResponse body (UtilsRequest.requestOnFulfilled h (mergeConfig axiosConfig config))))
        as [Hlen Hres].
      destruct (UtilsRequest.responseOnFulfilled h _) as [calls [v | res]];
        cbn [fst snd] in *.
      * split; [exact Hlen |]. split; [intros _ _; now apply (Hres v) | discriminate].
      * split; [exact Hlen |]. split; discriminate.
    + unfold UtilsRequest.responseOnRejected. cbn [fst snd].
      split; [| split; [discriminate |]].
      * destruct (wants_global_message _), (handleGlobalMessage h); cbn; lia.
      * intros e' c m _ Hin.
        destruct (wants_global_message _), (handleGlobalMessage h); cbn in Hin;
          try contradiction.
        destruct Hin as [Hin | []]. discriminate.
Qed.

(** X1, witness: a 500 with every handler registered calls
    [handleGlobalMessage] only. *)
Lemma request_calls_hooks_only_when_it_rejects_witness :
  ~ In (BackendError 500 "boom")
      (fst (UtilsRequest.request (T := unit) (mkHandlers None true true)
              (mkConfig None None None None) (mkConfig (Some "/user") None None None)
              (Failed (mkError false (Some UtilsRequest.defaultConfig)
                         (Some (mkErrResponse 500 (Some "/user"))) true "boom")))).
Proof.
  destruct (request_calls_hooks_only_when_it_rejects unit (mkHandlers None true true)
              (mkConfig None None None None) (mkConfig (Some "/user") None None None)
              (Failed (mkError false (Some UtilsRequest.defaultConfig)
                         (Some (mkErrResponse 500 (Some "/user"))) true "boom")))
    as (_ & _ & _ & Hnever).
  exact (Hnever _ 500%Z "boom" eq_refl).
Defined.

(** X2.  With the code check enabled the later variant behaves as the earlier
    one up to the value it resolves with: on one response the two default
    interceptors make the same hook calls and reject alike, and where the
    later one resolves with the envelope the earlier one resolves with its
    [data].  The same holds for [request] when no [handleRequestHeader] is
    registered and [enableCodeCheck] is not switched off, neither by the call
    nor, the call leaving it out, by [axiosConfig]. *)
Theorem variants_agree_up_to_unwrapping (T : Type) (h : RequestHandlers) :
  (forall response : AxiosResponse T,
      JS.truthy_flag (enableCodeCheck (resp_config response)) = true ->
      fst (SrcRequest.responseOnFulfilled h response)
      = fst (UtilsRequest.responseOnFulfilled h response)
      /\ snd (SrcRequest.responseOnFulfilled h response)
         = match snd (UtilsRequest.responseOnFulfilled h response) with
           | Resolve res => Resolve (data res)
           | Reject res => Reject res
           end)
  /\ (forall (axiosConfig config : RequestConfig) (t : Transport T),
        handleRequestHeader h = None ->
        enableCodeCheck config <> Some false ->
        (enableCodeCheck config = None -> enableCodeCheck axiosConfig <> Some false) ->
        fst (SrcRequest.request h axiosConfig config t)
        = fst (UtilsRequest.request h axiosConfig config t)
        /\ snd (SrcRequest.request h axiosConfig config t)
           = match snd (UtilsRequest.request h axiosConfig config t) with
             | Resolve res => Resolve (data res)
             | Reject r => Reject r
             end).
Proof.
  assert (forall response : AxiosResponse T,
             JS.truthy_flag (enableCodeCheck (resp_config response)) = true ->
             fst (SrcRequest.responseOnFulfilled h response)
             = fst (UtilsRequest.responseOnFulfilled h response)
             /\ snd (SrcRequest.responseOnFulfilled h response)
                = match snd (UtilsRequest.responseOnFulfilled h response) with
                  | Resolve res => Resolve (data res)
                  | Reject res => Reject res
                  end) as Hresponse.
  { intros response Hcheck.
    unfold SrcRequest.responseOnFulfilled, UtilsRequest.responseOnFulfilled.
    rewrite Hcheck. destruct (negb _); split; reflexivity. }
  split; [exact Hresponse |].
  intros axiosConfig config t Hheader Hcall Hinstance.
  unfold SrcRequest.request, UtilsRequest.request. destruct t as [body | e].
  - unfold SrcRequest.requestOnFulfilled, UtilsRequest.requestOnFulfilled.
    rewrite Hheader.
    assert (JS.truthy_flag
              (enableCodeCheck
                 (spread_config UtilsRequest.defaultConfig
                    (mergeConfig axiosConfig config))) = true) as Hon.
    { cbn. destruct (enableCodeCheck config) as [[] |]; cbn; try reflexivity.
      - now destruct Hcall.
      - destruct (enableCodeCheck axiosConfig) as [[] |]; cbn; try reflexivity.
        now destruct (Hinstance eq_refl). }
    unfold SrcRequest.responseOnFulfilled, UtilsRequest.responseOnFulfilled.
    cbn [resp_config resp_data]. rewrite Hon.
    change (successCode
              (spread_config SrcRequest.defaultConfig (mergeConfig axiosConfig config)))
      with (successCode
              (spread_config UtilsRequest.defaultConfig (mergeConfig axiosConfig config))).
    change (showGlobalMessage
              (spread_config SrcRequest.defaultConfig (mergeConfig axiosConfig config)))
      with (showGlobalMessage
              (spread_config UtilsRequest.defaultConfig (mergeConfig axiosConfig config))).
    destruct (negb _); split; reflexivity.
  - split; reflexivity.
Qed.

(** X2, witness: an instance created with [axiosConfig: { successCode: 200 }];
    code 40001 and code 200. *)
Lemma variants_agree_up_to_unwrapping_witness :
  fst (SrcRequest.request (mkHandlers None true false)
         (mkConfig None None (Some 200%Z) None)
         (mkConfig (Some "/user") None None None) (Responded (mkApi 40001 "" 5%Z)))
  = fst (UtilsRequest.request (mkHandlers None true false)
           (mkConfig None None (Some 200%Z) None)
           (mkConfig (Some "/user") None None None) (Responded (mkApi 40001 "" 5%Z)))
  /\ snd (SrcRequest.request (mkHandlers None true false)
            (mkConfig None None (Some 200%Z) None)
            (mkConfig (Some "/user") None None None) (Responded (mkApi 200 "ok" 5%Z)))
     = match snd (UtilsRequest.request (mkHandlers None true false)
                    (mkConfig None None (Some 200%Z) None)
                    (mkConfig (Some "/user") None None None)
                    (Responded (mkApi 200 "ok" 5%Z))) with
       | Resolve res => Resolve (data res)
       | Reject r => Reject r
       end.
Proof.
  destruct (variants_agree_up_to_unwrapping Z (mkHandlers None true false))
    as [_ Hrequest].
  split.
  - refine (proj1 (Hrequest (mkConfig None None (Some 200%Z) None)
                     (mkConfig (Some "/user") None None None)
                     (Responded (mkApi 40001 "" 5%Z)) eq_refl _ _)); discriminate.
  - refine (proj2 (Hrequest (mkConfig None None (Some 200%Z) None)
                     (mkConfig (Some "/user") None None None)
                     (Responded (mkApi 200 "ok" 5%Z)) eq_refl _ _)); discriminate.
Defined.

(** X3.  A response whose config carries no [successCode] is a business
    failure for the earlier variant, whatever its code; a response whose
    config carries no [enableCodeCheck] is a success for the later variant,
    whatever its code.  Such a config reaches the default response
    interceptor when the default request interceptor, which merges
    [defaultConfig], has been replaced. *)
Theorem response_config_without_custom_properties
    (T : Type) (h : RequestHandlers) (response : AxiosResponse T) :
  (successCode (resp_config response) = None ->
   snd (SrcRequest.responseOnFulfilled h response) = Reject (resp_data response))
  /\ (enableCodeCheck (resp_config response) = None ->
      UtilsRequest.responseOnFulfilled h response = ([], Resolve (resp_data response))).
Proof.
  split; intros Hnone.
  - unfold SrcRequest.responseOnFulfilled. now rewrite Hnone.
  - unfold UtilsRequest.responseOnFulfilled. now rewrite Hnone.
Qed.

(** X3, witness: the envelope with code 10000 and a config that has a url
    only. *)
Lemma response_config_without_custom_properties_witness :
  snd (SrcRequest.responseOnFulfilled (mkHandlers None true true)
         (mkResponse (mkApi 10000 "ok" 5%Z) (mkConfig (Some "/user") None None None)))
  = Reject (mkApi 10000 "ok" 5%Z)
  /\ UtilsRequest.responseOnFulfilled (mkHandlers None true true)
       (mkResponse (mkApi 40001 "no" 5%Z) (mkConfig (Some "/user") None None None))
     = ([], Resolve (mkApi 40001 "no" 5%Z)).
Proof.
  split.
  - apply (response_config_without_custom_properties Z (mkHandlers None true true)
             (mkResponse (mkApi 10000 "ok" 5%Z) (mkConfig (Some "/user") None None None))).
    reflexivity.
  - apply (response_config_without_custom_properties Z (mkHandlers None true true)
             (mkResponse (mkApi 40001 "no" 5%Z) (mkConfig (Some "/user") None None None))).
    reflexivity.
Defined.

(** X4.  A transport failure makes [request] of either variant reject with
    the error object it was given, in which only [message] is replaced, by a
    text that is never empty; that text is what [handleGlobalMessage]
    receives, if it is called. *)
Theorem transport_failure_keeps_the_error
    (T : Type) (h : RequestHandlers) (axiosConfig config : RequestConfig) (e : AxiosError) :
  exists m,
    m <> ""
    /\ UtilsRequest.request (T := T) h axiosConfig config (Failed e)
       = (if wants_global_message (err_config e) && handleGlobalMessage h
          then [GlobalMessage m] else [],
          Reject (TransportFailure
                    (mkError (isCancel e) (err_config e) (err_response e)
                       (err_request e) m)))
    /\ SrcRequest.request (T := T) h axiosConfig config (Failed e)
       = (if wants_global_message (err_config e) && handleGlobalMessage h
          then [GlobalMessage m] else [],
          Reject (TransportFailure
                    (mkError (isCancel e) (err_config e) (err_response e)
                       (err_request e) m))).
Proof.
  exists (UtilsRequest.errorMessageOf e). split; [apply errorMessageOf_not_empty |].
  split.
  - unfold UtilsRequest.request.
    rewrite (responseOnRejected_message _ h e _ eq_refl). reflexivity.
  - unfold SrcRequest.request. rewrite responseOnRejected_same.
    rewrite (responseOnRejected_message _ h e _ eq_refl). reflexivity.
Qed.

(** X5.  Without a [handleRequestHeader], [request] resolves exactly when the
    code of the envelope is the [successCode] of the call, or that of
    [axiosConfig] when the call gives none, or 10000 when neither gives one;
    in the later variant also whenever [enableCodeCheck] is false in the
    call, or in [axiosConfig] when the call leaves it out. *)
Theorem request_resolves_iff_code_is_success
    (T : Type) (h : RequestHandlers) (axiosConfig config : RequestConfig)
    (body : ApiResponse T) :
  handleRequestHeader h = None ->
  let expected :=
    match successCode config with
    | Some c => c
    | None => match successCode axiosConfig with
              | Some c => c
              | None => 10000%Z
              end
    end in
  ((exists v, snd (SrcRequest.request h axiosConfig config (Responded body)) = Resolve v)
   <-> code body = expected)
  /\ ((exists v, snd (UtilsRequest.request h axiosConfig config (Responded body))
                 = Resolve v)
      <-> (enableCodeCheck config = Some false
           \/ (enableCodeCheck config = None /\ enableCodeCheck axiosConfig = Some false)
           \/ code body = expected)).
Proof.
  intros Hheader expected.
  assert (forall d : RequestConfig,
             successCode d = Some 10000%Z ->
             JS.strict_eq
               (successCode (spread_config d (mergeConfig axiosConfig config)))
               (code body)
             = (expected =? code body)%Z) as Hexpected.
  { intros d Hd. cbn. rewrite Hd. unfold expected.
    now destruct (successCode config), (successCode axiosConfig). }
  split.
  - unfold SrcRequest.request, SrcRequest.requestOnFulfilled,
      SrcRequest.responseOnFulfilled.
    rewrite Hheader. cbn [resp_config resp_data].
    rewrite (Hexpected SrcRequest.defaultConfig eq_refl).
    destruct (Z.eqb_spec expected (code body)) as [Heq | Hneq]; cbn [negb snd].
    + split; [now intros _ | intros _; eexists; reflexivity].
    + split; [intros [v Hv]; discriminate | intros Heq; now destruct Hneq].
  - unfold UtilsRequest.request, UtilsRequest.requestOnFulfilled,
      UtilsRequest.responseOnFulfilled.
    rewrite Hheader. cbn [resp_config resp_data].
    rewrite (Hexpected UtilsRequest.defaultConfig eq_refl).
    cbn [spread_config mergeConfig enableCodeCheck UtilsRequest.defaultConfig].
    destruct (enableCodeCheck config) as [[] |];
      [| | destruct (enableCodeCheck axiosConfig) as [[] |]];
      cbn [spread JS.truthy_flag];
      destruct (Z.eqb_spec expected (code body)) as [Heq | Hneq]; cbn [negb snd];
      (split;
       [ intros [v Hv]; try discriminate; auto
       | intros Hwhy; try (eexists; reflexivity);
         destruct Hwhy as [Hoff | [[Hcall Hinstance] | Heq']];
         try discriminate; now destruct Hneq ]).
Qed.

(** X5, witness: an instance created with [axiosConfig: { successCode: 200 }]
    and a call that gives no [successCode]; code 200 resolves in both
    variants. *)
Lemma request_resolves_iff_code_is_success_witness :
  (exists v, snd (SrcRequest.request (mkHandlers None true true)
                    (mkConfig None None (Some 200%Z) None)
                    (mkConfig (Some "/user") None None None)
                    (Responded (mkApi 200 "ok" 5%Z))) = Resolve v)
  /\ (exists v, snd (UtilsRequest.request (mkHandlers None true true)
                       (mkConfig None None (Some 200%Z) None)
                       (mkConfig (Some "/user") None None None)
                       (Responded (mkApi 200 "ok" 5%Z))) = Resolve v).
Proof.
  destruct (request_resolves_iff_code_is_success Z (mkHandlers None true true)
              (mkConfig None None (Some 200%Z) None)
              (mkConfig (Some "/user") None None None)
              (mkApi 200 "ok" 5%Z) eq_refl) as [Hsrc Hutils].
  split.
  - apply Hsrc. reflexivity.
  - apply Hutils. right. right. reflexivity.
Defined.

(** [request] reads the custom properties of its config only, as long as no
    [handleRequestHeader] is registered. *)
Lemma request_ignores_url (T : Type) (h : RequestHandlers) (u : string)
    (axiosConfig config : RequestConfig) (t : Transport T) :
  handleRequestHeader h = None ->
  UtilsRequest.request h axiosConfig (Verbs.with_url u config) t
  = UtilsRequest.request h axiosConfig config t.
Proof.
  intros Hheader. unfold UtilsRequest.request, UtilsRequest.requestOnFulfilled.
  rewrite Hheader. destruct t as [body | e]; reflexivity.
Qed.

(** X6.  Each verb helper hands [request] the caller's config in which the
    url and the method are replaced by its own, and [params] (for [get] and
    [delete]) or [data] (for [post] and [put]) by its second argument, also
    when that argument is omitted; the custom properties are kept.  Without a
    [handleRequestHeader] the four helpers therefore handle one and the same
    answer of the transport exactly as [request] does on the caller's
    config. *)
Theorem verb_helpers_keep_the_custom_properties
    (T : Type) (h : RequestHandlers) (axiosConfig : RequestConfig) (u : string)
    (arg : option json) (config : option Verbs.CallConfig) (t : Transport T) :
  (forall built,
      In built [Verbs.get_config u arg config; Verbs.post_config u arg config;
                Verbs.put_config u arg config; Verbs.delete_config u arg config] ->
      url (Verbs.cc_config built) = Some u
      /\ showGlobalMessage (Verbs.cc_config built)
         = showGlobalMessage (Verbs.cc_config (Verbs.own config))
      /\ successCode (Verbs.cc_config built)
         = successCode (Verbs.cc_config (Verbs.own config))
      /\ enableCodeCheck (Verbs.cc_config built)
         = enableCodeCheck (Verbs.cc_config (Verbs.own config)))
  /\ Verbs.cc_method (Verbs.get_config u arg config) = Some "GET"
  /\ Verbs.cc_method (Verbs.post_config u arg config) = Some "POST"
  /\ Verbs.cc_method (Verbs.put_config u arg config) = Some "PUT"
  /\ Verbs.cc_method (Verbs.delete_config u arg config) = Some "DELETE"
  /\ Verbs.cc_params (Verbs.get_config u arg config) = arg
  /\ Verbs.cc_params (Verbs.delete_config u arg config) = arg
  /\ Verbs.cc_data (Verbs.post_config u arg config) = arg
  /\ Verbs.cc_data (Verbs.put_config u arg config) = arg
  /\ (handleRequestHeader h = None ->
      Verbs.get h axiosConfig u arg config t
      = UtilsRequest.request h axiosConfig (Verbs.cc_config (Verbs.own config)) t
      /\ Verbs.post h axiosConfig u arg config t
         = UtilsRequest.request h axiosConfig (Verbs.cc_config (Verbs.own config)) t
      /\ Verbs.put h axiosConfig u arg config t
         = UtilsRequest.request h axiosConfig (Verbs.cc_config (Verbs.own config)) t
      /\ Verbs.delete h axiosConfig u arg config t
         = UtilsRequest.request h axiosConfig (Verbs.cc_config (Verbs.own config)) t).
Proof.
  split.
  { intros built [<- | [<- | [<- | [<- | []]]]]; repeat split. }
  repeat (split; [reflexivity |]).
  intros Hheader.
  unfold Verbs.get, Verbs.post, Verbs.put, Verbs.delete.
  cbn [Verbs.cc_config Verbs.get_config Verbs.post_config Verbs.put_config
       Verbs.delete_config].
  rewrite (request_ignores_url T h u axiosConfig _ t Hheader). repeat split.
Qed.

(** X6, witness: [post('/user', undefined, { showGlobalMessage: false, data })]
    sends no data, and a business failure stays silent. *)
Lemma verb_helpers_keep_the_custom_properties_witness :
  Verbs.cc_data
    (Verbs.post_config "/user" None
       (Some (Verbs.mkCall (mkConfig None (Some false) None None) None None
                (Some (JNum 1)))))
  = None
  /\ Verbs.post (mkHandlers None true false) (mkConfig None None None None)
       "/user" None
       (Some (Verbs.mkCall (mkConfig None (Some false) None None) None None
                (Some (JNum 1))))
       (Responded (mkApi 40001 "no" tt))
     = UtilsRequest.request (mkHandlers None true false) (mkConfig None None None None)
         (mkConfig None (Some false) None None) (Responded (mkApi 40001 "no" tt)).
Proof.
  destruct (verb_helpers_keep_the_custom_properties unit (mkHandlers None true false)
              (mkConfig None None None None) "/user" None
              (Some (Verbs.mkCall (mkConfig None (Some false) None None) None None
                       (Some (JNum 1))))
              (Responded (mkApi 40001 "no" tt)))
    as (_ & _ & _ & _ & _ & _ & _ & Hdata & _ & Hsettle).
  split; [exact Hdata |].
  exact (proj1 (proj2 (Hsettle eq_refl))).
Defined.

(** * Properties of the constructor and of the request that [stream] sends *)

Lemma get_assign (k k' v : string) (o : UtilsClient.Obj) :
  UtilsClient.get k (UtilsClient.assign k' v o)
  = if k' =? k then Some v else UtilsClient.get k o.
Proof.
  induction o as [| [k0 v0] rest IH]; cbn.
  - now destruct (k' =? k).
  - destruct (String.eqb_spec k0 k') as [-> | Hother]; cbn.
    + now destruct (k' =? k).
    + destruct (String.eqb_spec k0 k) as [-> | Hk]; [| exact IH].
      destruct (String.eqb_spec k' k) as [-> | _]; [now destruct Hother | reflexivity].
Qed.

Lemma get_absent (k : string) (o : UtilsClient.Obj) :
  ~ In k (map fst o) -> UtilsClient.get k o = None.
Proof.
  induction o as [| [k0 v0] rest IH]; cbn; [reflexivity |].
  intros Hnot. destruct (String.eqb_spec k0 k) as [-> | _].
  - destruct Hnot. now left.
  - apply IH. intros Hin. apply Hnot. now right.
Qed.

(** Reading a property of [{ ...base, ...extra }]. *)
Lemma get_spread_objects (k : string) (extra : UtilsClient.Obj) :
  forall base : UtilsClient.Obj,
    NoDup (map fst extra) ->
    UtilsClient.get k (UtilsClient.spread_objects base extra)
    = match UtilsClient.get k extra with
      | Some v => Some v
      | None => UtilsClient.get k base
      end.
Proof.
  unfold UtilsClient.spread_objects.
  induction extra as [| [k1 v1] rest IH]; intros base Hdup; [reflexivity |].
  inversion Hdup as [| ? ? Hfresh Hrest]; subst.
  cbn [fold_left fst snd UtilsClient.get]. rewrite (IH _ Hrest), get_assign.
  destruct (String.eqb_spec k1 k) as [-> | _]; [| reflexivity].
  now rewrite (get_absent _ _ Hfresh).
Qed.

(** X7.  The headers that [stream] sends are the caller's headers laid over
    [Content-Type: application/json] and [Accept: text/event-stream]: a
    header of the caller wins over a default of exactly the same name, and a
    default is sent whenever the caller gives no header of that name.  The
    method is [POST] unless the caller gives one, and a falsy body is not
    sent. *)
Theorem stream_request_headers (JSValue : Type) (ToBoolean : JSValue -> bool)
    (JSON_stringify : JSValue -> string) (o : UtilsClient.StreamTarget JSValue)
    (hs : UtilsClient.Obj) :
  UtilsClient.target_headers o = Some hs ->
  NoDup (map fst hs) ->
  (forall k,
      UtilsClient.get k
        (UtilsClient.init_headers (UtilsClient.fetch_init ToBoolean JSON_stringify o))
      = match UtilsClient.get k hs with
        | Some v => Some v
        | None => UtilsClient.get k UtilsClient.defaultHeaders
        end)
  /\ (UtilsClient.target_method o = None ->
      UtilsClient.init_method (UtilsClient.fetch_init ToBoolean JSON_stringify o) = "POST")
  /\ (forall b,
        UtilsClient.target_body o = Some b -> ToBoolean b = false ->
        UtilsClient.init_body (UtilsClient.fetch_init ToBoolean JSON_stringify o) = None).
Proof.
  intros Hheaders Hdup. split; [| split].
  - intros k. unfold UtilsClient.fetch_init. cbn [UtilsClient.init_headers].
    rewrite Hheaders. now apply get_spread_objects.
  - intros Hmethod. unfold UtilsClient.fetch_init. cbn. now rewrite Hmethod.
  - intros b Hbody Hfalsy. unfold UtilsClient.fetch_init. cbn.
    now rewrite Hbody, Hfalsy.
Qed.

(** X7, witness: the caller sets [Accept] and [Authorization] and passes the
    body [0]. *)
Lemma stream_request_headers_witness :
  let o :=
    UtilsClient.mkTarget "/chat" None None
      (Some [("Authorization", "Bearer t"); ("Accept", "text/plain")])
      (Some (JNum 0)) in
  let init := UtilsClient.fetch_init JSON.ToBoolean JSON.ToString o in
  UtilsClient.get "Accept" (UtilsClient.init_headers init) = Some "text/plain"
  /\ UtilsClient.get "Content-Type" (UtilsClient.init_headers init)
     = Some "application/json"
  /\ UtilsClient.get "Authorization" (UtilsClient.init_headers init) = Some "Bearer t"
  /\ UtilsClient.init_method init = "POST"
  /\ UtilsClient.init_body init = None.
Proof.
  intros o init.
  assert (NoDup (map fst [("Authorization", "Bearer t"); ("Accept", "text/plain")]))
    as Hdup.
  { repeat constructor; cbn; intuition discriminate. }
  destruct (stream_request_headers json JSON.ToBoolean JSON.ToString o
              [("Authorization", "Bearer t"); ("Accept", "text/plain")] eq_refl Hdup)
    as (Hget & Hmethod & Hbody).
  split; [exact (Hget "Accept") |].
  split; [exact (Hget "Content-Type") |].
  split; [exact (Hget "Authorization") |].
  split; [exact (Hmethod eq_refl) |].
  exact (Hbody (JNum 0) eq_refl eq_refl).
Defined.

(** X8.  [axiosConfig] can replace the [baseURL] and the [timeout] of the
    axios instance, which otherwise are the constructor's [baseURL] and
    10000; [stream] does not look at [axiosConfig]: unless its options give a
    [baseURL], it sends to the constructor's [baseURL] followed by the url. *)
Theorem stream_ignores_the_baseURL_of_axiosConfig
    (JSValue : Type) (options : UtilsClient.HttpClientOptions)
    (axiosConfig : UtilsClient.AxiosConfig) (o : UtilsClient.StreamTarget JSValue) :
  UtilsClient.opt_axiosConfig options = Some axiosConfig ->
  UtilsClient.target_baseURL o = None ->
  UtilsClient.fetch_input (UtilsClient.constructor options) o
  = UtilsClient.opt_baseURL options ++ UtilsClient.target_url o
  /\ UtilsClient.ax_baseURL (UtilsClient.instance_config (UtilsClient.constructor options))
     = Some match UtilsClient.ax_baseURL axiosConfig with
            | Some b => b
            | None => UtilsClient.opt_baseURL options
            end
  /\ UtilsClient.ax_timeout (UtilsClient.instance_config (UtilsClient.constructor options))
     = Some match UtilsClient.ax_timeout axiosConfig with
            | Some ms => ms
            | None => 10000%Z
            end.
Proof.
  intros Hconfig Hbase.
  unfold UtilsClient.fetch_input, UtilsClient.constructor. rewrite Hconfig, Hbase.
  cbn. repeat split.
  - now destruct (UtilsClient.ax_baseURL axiosConfig).
  - now destruct (UtilsClient.ax_timeout axiosConfig).
Qed.

(** X8, witness: the constructor gets [/api] and [axiosConfig] carries
    [/v2]. *)
Lemma stream_ignores_the_baseURL_of_axiosConfig_witness :
  let options :=
    UtilsClient.mkClientOptions "/api"
      (Some (UtilsClient.mkAxiosConfig (Some "/v2") None (mkConfig None None None None)))
      None in
  UtilsClient.fetch_input (UtilsClient.constructor options)
    (UtilsClient.mkTarget (JSValue := json) "/chat" None None None None)
  = "/api/chat"
  /\ UtilsClient.ax_baseURL (UtilsClient.instance_config (UtilsClient.constructor options))
     = Some "/v2"
  /\ UtilsClient.ax_timeout (UtilsClient.instance_config (UtilsClient.constructor options))
     = Some 10000%Z.
Proof.
  intros options.
  exact (stream_ignores_the_baseURL_of_axiosConfig json options
           (UtilsClient.mkAxiosConfig (Some "/v2") None (mkConfig None None None None))
           (UtilsClient.mkTarget "/chat" None None None None) eq_refl eq_refl).
Defined.

(** * Further properties of the stream consumer *)

Lemma concat_cons (x : string) (xs : list string) :
  String.concat "" (x :: xs) = x ++ String.concat "" xs.
Proof.
  destruct xs; cbn; [now rewrite append_empty | reflexivity].
Qed.

Lemma split_lines_not_empty (s : string) : Str.split_lines s <> [].
Proof.
  destruct s as [| c rest]; cbn [Str.split_lines]; [discriminate |].
  destruct (Ascii.eqb c Str.LF); [discriminate |].
  destruct (Str.split_lines rest); discriminate.
Qed.

(** Splitting a text that contains a line feed. *)
Lemma split_lines_at_line_feed (a b : string) :
  Str.split_lines (a ++ Str.newline ++ b) = (Str.split_lines a ++ Str.split_lines b)%list.
Proof.
  induction a as [| c rest IH].
  - reflexivity.
  - cbn [append Str.split_lines]. destruct (Ascii.eqb c Str.LF).
    + now rewrite IH.
    + rewrite IH. pose proof (split_lines_not_empty rest) as Hne.
      now destruct (Str.split_lines rest).
Qed.

Section StreamTraceProperties.

Context {JSValue : Type}.
Variable JSON_parse : string -> option JSValue.
Variable ToBoolean : JSValue -> bool.
Variable ToString : JSValue -> string.
Variable options : UtilsStream.StreamRequestOptions JSValue.
Variable callbacks : UtilsStream.StreamCallbacks.

Local Notation State := (UtilsStream.State JSValue).
Local Notation mkState := UtilsStream.mkState.
Local Notation Normal := UtilsStream.Normal.
Local Notation Return := UtilsStream.Return.
Local Notation Throw := UtilsStream.Throw.
Local Notation process_line :=
  (UtilsStream.process_line JSON_parse ToBoolean ToString options callbacks).
Local Notation for_lines :=
  (UtilsStream.for_lines JSON_parse ToBoolean ToString options callbacks).
Local Notation read_loop :=
  (UtilsStream.read_loop JSON_parse ToBoolean ToString options callbacks).
Local Notation try_block :=
  (UtilsStream.try_block JSON_parse ToBoolean ToString options callbacks).
Local Notation stream :=
  (UtilsStream.stream JSON_parse ToBoolean ToString options callbacks).
Local Notation started := (@UtilsStream.started JSValue callbacks).
Local Notation onMessage := (UtilsStream.onMessage callbacks).
Local Notation onComplete := (UtilsStream.onComplete callbacks).
Local Notation onError := (UtilsStream.onError callbacks).
Local Notation onStart := (UtilsStream.onStart callbacks).
Local Notation orderly := (StreamTrace.orderly ToString callbacks).
Local Notation running := (StreamTrace.running ToString).
Local Notation when b e := (if b then [e] else []).
Local Notation fresh :=
  {| UtilsStream.external := None; UtilsStream.controller := None |}.

Ltac unfold_stream :=
  unfold UtilsStream.read, UtilsStream.message_, UtilsStream.complete_,
    UtilsStream.bind, UtilsStream.ret, UtilsStream.return_, UtilsStream.throw,
    UtilsStream.get_fullText, UtilsStream.append, UtilsStream.call,
    UtilsStream.count_read, UtilsStream.abort_external in *.

Ltac simpl_st :=
  cbn [UtilsStream.st_fullText UtilsStream.st_calls UtilsStream.st_reads
       UtilsStream.st_signals UtilsStream.fullText fst snd] in *.

Lemma running_app (m1 m2 : list (UtilsStream.Event JSValue)) :
  forall s t u, running s m1 t -> running t m2 u -> running s (m1 ++ m2) u.
Proof.
  induction m1 as [| [| chunk full | e | full] rest IH]; intros s t u H1 H2;
    cbn in H1 |- *; try contradiction.
  - now subst.
  - destruct H1 as [Hfull Hrest]. split; [assumption | now apply (IH full t u)].
Qed.

Lemma running_only_messages (msgs : list (UtilsStream.Event JSValue)) :
  forall s t, running s msgs t -> forallb StreamTrace.is_OnMessage msgs = true.
Proof.
  induction msgs as [| [| chunk full | e | full] rest IH]; intros s t H;
    cbn in H |- *; try contradiction; [reflexivity |].
  destruct H as [_ Hrest]. now apply (IH full t).
Qed.

(** The accumulated text is the concatenation of the chunks delivered. *)
Lemma running_concat (msgs : list (UtilsStream.Event JSValue)) :
  forall s t,
    running s msgs t ->
    t = s ++ String.concat "" (StreamTrace.chunk_texts ToString msgs).
Proof.
  induction msgs as [| [| chunk full | e | full] rest IH]; intros s t H;
    cbn [StreamTrace.running] in H; try contradiction.
  - cbn. now rewrite append_empty.
  - destruct H as [Hfull Hrest]. cbn [StreamTrace.chunk_texts].
    rewrite concat_cons, (IH _ _ Hrest), Hfull. apply append_assoc.
Qed.

Lemma orderly_bind (A B : Type) (m : UtilsStream.M JSValue A)
    (k : A -> UtilsStream.M JSValue B) :
  orderly m -> (forall a, orderly (k a)) -> orderly (UtilsStream.bind m k).
Proof.
  intros Hm Hk st st' c Hrun. unfold UtilsStream.bind in Hrun.
  destruct (m st) as [st1 c1] eqn:Hfirst.
  destruct (Hm _ _ _ Hfirst) as (msgs1 & Hacc1 & Hcalls1).
  destruct c1 as [a | r | e].
  - destruct (Hk a _ _ _ Hrun) as (msgs2 & Hacc2 & Hcalls2).
    exists (msgs1 ++ msgs2)%list. split.
    + destruct onMessage; [now apply (running_app _ _ _ _ _ Hacc1) | now subst].
    + destruct c as [b | r | e]; rewrite Hcalls1 in Hcalls2.
      * now rewrite Hcalls2, !app_assoc.
      * destruct Hcalls2 as [Hcalls2 Htext]. split; [| assumption].
        now rewrite Hcalls2, !app_assoc.
      * now rewrite Hcalls2, !app_assoc.
  - injection Hrun as <- <-. exists msgs1. now split.
  - injection Hrun as <- <-. exists msgs1. now split.
Qed.

(** A statement that neither records a call nor touches [fullText] nor
    returns from [stream]. *)
Lemma orderly_silent (A : Type) (m : UtilsStream.M JSValue A) :
  (forall st,
      UtilsStream.st_calls (fst (m st)) = UtilsStream.st_calls st
      /\ UtilsStream.st_fullText (fst (m st)) = UtilsStream.st_fullText st
      /\ forall r, snd (m st) <> Return r) ->
  orderly m.
Proof.
  intros Hsilent st st' c Hrun. destruct (Hsilent st) as (Hcalls & Htext & Hret).
  rewrite Hrun in Hcalls, Htext, Hret. simpl_st.
  exists []. split.
  - destruct onMessage; [cbn; congruence | reflexivity].
  - destruct c as [a | r | e]; rewrite ?app_nil_r; congruence.
Qed.

Lemma orderly_message (st : State) (chunk : UtilsStream.Content JSValue) :
  exists msgs,
    (if onMessage
     then running (UtilsStream.st_fullText st) msgs
            (UtilsStream.st_fullText st ++ UtilsStream.content_string ToString chunk)
     else msgs = [])
    /\ (UtilsStream.st_calls st
        ++ when onMessage
             (UtilsStream.OnMessage chunk
                (UtilsStream.st_fullText st
                 ++ UtilsStream.content_string ToString chunk)))%list
       = (UtilsStream.st_calls st ++ msgs)%list.
Proof.
  destruct onMessage.
  - eexists. split; [| reflexivity]. cbn. now split.
  - exists []. now split.
Qed.

Lemma orderly_process_line (line : string) : orderly (process_line line).
Proof.
  intros st st' c Hrun.
  destruct (String.eqb_spec (Str.trim line) "") as [Hblank | Hblank].
  { rewrite process_line_blank in Hrun by assumption. injection Hrun as <- <-.
    exists []. rewrite app_nil_r. split; [| reflexivity].
    now destruct onMessage. }
  destruct (Str.startsWith "data: " line) eqn:Hprefix.
  2:{ rewrite process_line_plain in Hrun by assumption. injection Hrun as <- <-.
      simpl_st. apply (orderly_message st (UtilsStream.CStr line)). }
  destruct (String.eqb_spec (Str.trim (Str.slice 6 line)) "[DONE]") as [Hdone | Hdone].
  { rewrite process_line_done in Hrun by assumption. injection Hrun as <- <-.
    simpl_st. exists []. rewrite append_empty. split.
    - now destruct onMessage.
    - now split. }
  destruct (JSON_parse (Str.trim (Str.slice 6 line))) as [parsed |] eqn:Hparse.
  - rewrite (process_line_json _ _ _ _ _ line parsed) in Hrun by assumption.
    destruct (UtilsStream.content_truthy _ _); injection Hrun as <- <-; simpl_st.
    + apply orderly_message.
    + exists []. rewrite app_nil_r. split; [| reflexivity].
      now destruct onMessage.
  - rewrite process_line_text in Hrun by assumption. injection Hrun as <- <-.
    simpl_st.
    apply (orderly_message st (UtilsStream.CStr (Str.trim (Str.slice 6 line)))).
Qed.

Lemma orderly_for_lines (lines : list string) : orderly (for_lines lines).
Proof.
  induction lines as [| line rest IH]; cbn [UtilsStream.for_lines].
  - apply orderly_silent. intros st. cbn. repeat split. discriminate.
  - apply orderly_bind; [apply orderly_process_line | intros _; exact IH].
Qed.

Lemma orderly_read (answer : option UtilsStream.ReadResult) :
  orderly (UtilsStream.read options answer).
Proof.
  apply orderly_silent. intros st. unfold_stream. simpl_st.
  destruct (UtilsStream.requestSignal _ _); [repeat split; discriminate |].
  destruct answer as [[chunk | e] |]; repeat split; discriminate.
Qed.

Lemma orderly_read_loop (ticks : list UtilsStream.Tick) : orderly (read_loop ticks).
Proof.
  induction ticks as [| [reason | r] rest IH]; cbn [UtilsStream.read_loop].
  - apply orderly_bind; [apply orderly_read |].
    intros _. apply orderly_silent. intros st. cbn. repeat split. discriminate.
  - apply orderly_bind; [| intros _; exact IH].
    apply orderly_silent. intros st. cbn. repeat split. discriminate.
  - apply orderly_bind; [apply orderly_read |].
    intros [chunk |].
    + apply orderly_bind; [apply orderly_for_lines | intros _; exact IH].
    + apply orderly_silent. intros st. cbn. repeat split. discriminate.
Qed.

Lemma orderly_completion :
  orderly
    (UtilsStream.bind (UtilsStream.complete_ callbacks)
       (fun _ =>
          UtilsStream.bind (@UtilsStream.get_fullText JSValue)
            (fun full =>
               UtilsStream.return_ JSValue (A := Empty_set)
                 {| UtilsStream.fullText := full;
                    UtilsStream.abort := UtilsStream.ControllerAbort |}))).
Proof.
  intros st st' c Hrun. unfold_stream.
  exists []. destruct onComplete; injection Hrun as <- <-; simpl_st.
  - split; [now destruct onMessage | now split].
  - split; [now destruct onMessage |]. cbn [app]. now rewrite app_nil_r.
Qed.

(** The calls of one call of [stream], in order. *)
Lemma stream_trace (w : UtilsStream.FetchResult) :
  exists msgs text,
    (if onMessage then running "" msgs text else msgs = [])
    /\ UtilsStream.calls (stream w)
       = (when onStart UtilsStream.OnStart ++ msgs
          ++ match UtilsStream.settled (stream w) with
             | Resolve r => when onComplete (UtilsStream.OnComplete (UtilsStream.fullText r))
             | Reject e => when onError (UtilsStream.OnError e)
             end)%list
    /\ (forall r, UtilsStream.settled (stream w) = Resolve r ->
                  UtilsStream.fullText r = text).
Proof.
  assert (forall e st,
             try_block w UtilsStream.initial = (st, Throw e) ->
             UtilsStream.st_calls st = when onStart UtilsStream.OnStart ->
             exists msgs text,
               (if onMessage then running "" msgs text else msgs = [])
               /\ UtilsStream.calls (stream w)
                  = (when onStart UtilsStream.OnStart ++ msgs
                     ++ match UtilsStream.settled (stream w) with
                        | Resolve r =>
                            when onComplete
                              (UtilsStream.OnComplete (UtilsStream.fullText r))
                        | Reject e => when onError (UtilsStream.OnError e)
                        end)%list
               /\ (forall r, UtilsStream.settled (stream w) = Resolve r ->
                             UtilsStream.fullText r = text)) as Hearly.
  { intros e st Hrun Hcalls. exists [], "". unfold UtilsStream.stream.
    rewrite Hrun. unfold UtilsStream.call.
    split; [now destruct onMessage |].
    destruct onError; cbn; rewrite Hcalls; (split; [| discriminate]).
    - reflexivity.
    - now rewrite app_nil_r. }
  destruct w as [[[] status [ticks |]] | e].
  - pose proof (orderly_bind _ _ _ _ (orderly_read_loop ticks)
                  (fun _ => orderly_completion)) as Hord.
    unfold UtilsStream.stream. rewrite try_block_reading.
    match goal with
    | |- context [UtilsStream.bind ?m ?k started] =>
        destruct (UtilsStream.bind m k started) as [st c] eqn:Hrun;
        destruct (Hord _ _ _ Hrun) as (msgs & Hacc & Hcalls)
    end.
    rewrite started_state in Hacc, Hcalls. simpl_st.
    exists msgs, (UtilsStream.st_fullText st). split; [exact Hacc |].
    destruct c as [[] | r | err].
    + destruct Hcalls as [Hcalls Htext]. cbn. split; [exact Hcalls |].
      intros r' Hr'. injection Hr' as <-. exact Htext.
    + unfold UtilsStream.call.
      destruct onError; cbn; rewrite Hcalls; (split; [| discriminate]).
      * now rewrite <- app_assoc.
      * now rewrite app_nil_r.
  - apply (Hearly (UtilsStream.new_Error "Response body is not readable") started);
      [| now rewrite started_state].
    unfold UtilsStream.try_block, UtilsStream.started. unfold_stream.
    now destruct onStart.
  - apply (Hearly (UtilsStream.new_Error
                     ("HTTP error! status: " ++ JS.Number_toString status)) started);
      [| now rewrite started_state].
    unfold UtilsStream.try_block, UtilsStream.started. unfold_stream.
    now destruct onStart.
  - apply (Hearly (UtilsStream.new_Error
                     ("HTTP error! status: " ++ JS.Number_toString status)) started);
      [| now rewrite started_state].
    unfold UtilsStream.try_block, UtilsStream.started. unfold_stream.
    now destruct onStart.
  - apply (Hearly e started); [| now rewrite started_state].
    unfold UtilsStream.try_block, UtilsStream.started. unfold_stream.
    now destruct onStart.
Qed.

(** X9.  Whatever [fetch] and the body answer, the registered callbacks are
    called in this order: [onStart] first, then [onMessage] any number of
    times, and last either [onComplete] with the text the promise resolves
    with, or [onError] with the error the promise rejects with. *)
Theorem stream_calls_in_order (w : UtilsStream.FetchResult) :
  exists msgs,
    forallb StreamTrace.is_OnMessage msgs = true
    /\ UtilsStream.calls (stream w)
       = (when onStart UtilsStream.OnStart ++ msgs
          ++ match UtilsStream.settled (stream w) with
             | Resolve r => when onComplete (UtilsStream.OnComplete (UtilsStream.fullText r))
             | Reject e => when onError (UtilsStream.OnError e)
             end)%list.
Proof.
  destruct (stream_trace w) as (msgs & text & Hacc & Hcalls & _).
  exists msgs. split; [| exact Hcalls].
  destruct onMessage; [now apply (running_only_messages msgs "" text) | now subst].
Qed.

(** X10.  When [onMessage] is registered and the call resolves, the text it
    resolves with is the concatenation, in order, of the chunks that
    [onMessage] received, and every call of [onMessage] received as second
    argument the text accumulated up to and including its chunk. *)
Theorem fullText_is_what_onMessage_received
    (w : UtilsStream.FetchResult) (r : UtilsStream.StreamResponse) :
  onMessage = true ->
  UtilsStream.settled (stream w) = Resolve r ->
  exists msgs,
    UtilsStream.calls (stream w)
    = (when onStart UtilsStream.OnStart ++ msgs
       ++ when onComplete (UtilsStream.OnComplete (UtilsStream.fullText r)))%list
    /\ running "" msgs (UtilsStream.fullText r)
    /\ UtilsStream.fullText r
       = String.concat "" (StreamTrace.chunk_texts ToString msgs).
Proof.
  intros Hregistered Hsettled.
  destruct (stream_trace w) as (msgs & text & Hacc & Hcalls & Htext).
  rewrite Hregistered in Hacc. rewrite Hsettled in Hcalls.
  rewrite <- (Htext r Hsettled) in Hacc.
  exists msgs. split; [exact Hcalls |]. split; [exact Hacc |].
  exact (running_concat msgs "" _ Hacc).
Qed.

End StreamTraceProperties.

(** X10, witness: the chunks [data: {"v":1}] and [ab], with
    [extractContent = r => String(r.v)]; the call resolves with ["1ab"]. *)
Lemma fullText_is_what_onMessage_received_witness :
  exists msgs,
    UtilsStream.calls
      (UtilsStream.stream JSON.parse JSON.ToBoolean JSON.ToString
         (UtilsStream.mkOptions false (Some (fun r => JSON.String_ (JSON.get "v" r))))
         (UtilsStream.mkCallbacks true true true true)
         (UtilsStream.Fetched
            (UtilsStream.mkFetchResponse true 200
               (Some (UtilsStream.values
                        ["data: {" ++ JSON.quote ++ "v" ++ JSON.quote ++ ":1}"
                         ++ Str.newline; "ab"])))))
    = ([UtilsStream.OnStart] ++ msgs ++ [UtilsStream.OnComplete "1ab"])%list
    /\ StreamTrace.running JSON.ToString "" msgs "1ab"
    /\ "1ab" = String.concat "" (StreamTrace.chunk_texts JSON.ToString msgs).
Proof.
  exact (fullText_is_what_onMessage_received JSON.parse JSON.ToBoolean JSON.ToString
           (UtilsStream.mkOptions false (Some (fun r => JSON.String_ (JSON.get "v" r))))
           (UtilsStream.mkCallbacks true true true true)
           (UtilsStream.Fetched
              (UtilsStream.mkFetchResponse true 200
                 (Some (UtilsStream.values
                          ["data: {" ++ JSON.quote ++ "v" ++ JSON.quote ++ ":1}"
                           ++ Str.newline; "ab"]))))
           {| UtilsStream.fullText := "1ab";
              UtilsStream.abort := UtilsStream.ControllerAbort |}
           eq_refl eq_refl).
Defined.

Section StreamLineProperties.

Context {JSValue : Type}.
Variable JSON_parse : string -> option JSValue.
Variable ToBoolean : JSValue -> bool.
Variable ToString : JSValue -> string.
Variable options : UtilsStream.StreamRequestOptions JSValue.
Variable callbacks : UtilsStream.StreamCallbacks.

Local Notation State := (UtilsStream.State JSValue).
Local Notation mkState := UtilsStream.mkState.
Local Notation Normal := UtilsStream.Normal.
Local Notation Return := UtilsStream.Return.
Local Notation Throw := UtilsStream.Throw.
Local Notation process_line :=
  (UtilsStream.process_line JSON_parse ToBoolean ToString options callbacks).
Local Notation for_lines :=
  (UtilsStream.for_lines JSON_parse ToBoolean ToString options callbacks).
Local Notation read_loop :=
  (UtilsStream.read_loop JSON_parse ToBoolean ToString options callbacks).
Local Notation stream :=
  (UtilsStream.stream JSON_parse ToBoolean ToString options callbacks).
Local Notation started := (@UtilsStream.started JSValue callbacks).
Local Notation onMessage := (UtilsStream.onMessage callbacks).
Local Notation onComplete := (UtilsStream.onComplete callbacks).
Local Notation onError := (UtilsStream.onError callbacks).
Local Notation when b e := (if b then [e] else []).
Local Notation fresh :=
  {| UtilsStream.external := None; UtilsStream.controller := None |}.
Local Notation body_of status ticks :=
  (UtilsStream.Fetched (UtilsStream.mkFetchResponse true status (Some ticks))).

Ltac unfold_stream :=
  unfold UtilsStream.read, UtilsStream.message_, UtilsStream.complete_,
    UtilsStream.bind, UtilsStream.ret, UtilsStream.return_, UtilsStream.throw,
    UtilsStream.get_fullText, UtilsStream.append, UtilsStream.call,
    UtilsStream.count_read, UtilsStream.abort_external in *.

Ltac simpl_st :=
  cbn [UtilsStream.st_fullText UtilsStream.st_calls UtilsStream.st_reads
       UtilsStream.st_signals UtilsStream.fullText fst snd] in *.

(** Blank lines can be left out. *)
Lemma for_lines_nonblank (lines : list string) :
  forall st : State,
    for_lines lines st = for_lines (filter StreamTrace.nonblank lines) st.
Proof.
  induction lines as [| line rest IH]; intros st; [reflexivity |].
  cbn [filter]. unfold StreamTrace.nonblank at 1.
  destruct (String.eqb_spec (Str.trim line) "") as [Hblank | Hblank]; cbn [negb].
  - cbn [UtilsStream.for_lines]. unfold UtilsStream.bind.
    rewrite process_line_blank by assumption. apply IH.
  - cbn [UtilsStream.for_lines]. unfold UtilsStream.bind.
    destruct (process_line line st) as [st1 [[] | r | e]]; [apply IH | reflexivity ..].
Qed.

(** Lines that are not [data: ] lines are appended as they are. *)
Lemma for_lines_plain_text (lines : list string) :
  Forall (fun l => Str.startsWith "data: " l = false) lines ->
  forall st : State,
    exists evs,
      for_lines lines st
      = (mkState
           (UtilsStream.st_fullText st
            ++ String.concat "" (filter StreamTrace.nonblank lines))
           (UtilsStream.st_calls st ++ evs)
           (UtilsStream.st_reads st) (UtilsStream.st_signals st),
         Normal tt).
Proof.
  induction 1 as [| line rest Hplain _ IH]; intros st.
  - exists []. destruct st. cbn. unfold UtilsStream.ret.
    now rewrite append_empty, app_nil_r.
  - cbn [filter UtilsStream.for_lines]. unfold StreamTrace.nonblank at 1.
    unfold UtilsStream.bind.
    destruct (String.eqb_spec (Str.trim line) "") as [Hblank | Hblank]; cbn [negb].
    + rewrite process_line_blank by assumption. apply IH.
    + rewrite process_line_plain by assumption.
      match goal with
      | |- context [for_lines rest ?st1] => destruct (IH st1) as [evs Hrest]
      end.
      rewrite Hrest. simpl_st. eexists.
      rewrite concat_cons, <- append_assoc, <- app_assoc. reflexivity.
Qed.

(** Reading chunks, one of whose lines returns from [stream]. *)
Lemma read_loop_values_return (chunks : list string) :
  forall (text0 : string) (calls0 : list (UtilsStream.Event JSValue)) (r : nat)
         (sg : UtilsStream.Signals) (st1 : State) (ret : UtilsStream.StreamResponse),
    UtilsStream.requestSignal options sg = None ->
    for_lines (flat_map Str.split_lines chunks) (mkState text0 calls0 r sg)
    = (st1, Return ret) ->
    exists n,
      read_loop (UtilsStream.values chunks) (mkState text0 calls0 r sg)
      = (mkState (UtilsStream.st_fullText st1) (UtilsStream.st_calls st1) n sg,
         Return ret).
Proof.
  induction chunks as [| chunk chunks IH]; intros text0 calls0 r sg st1 ret Hsig Hrun.
  - discriminate.
  - cbn [flat_map] in Hrun. rewrite for_lines_app in Hrun.
    unfold UtilsStream.bind in Hrun.
    destruct (for_lines (Str.split_lines chunk) (mkState text0 calls0 r sg))
      as [st' [[] | r' | e']] eqn:Hchunk; try discriminate.
    + cbn [UtilsStream.values map]. fold (UtilsStream.values chunks).
      rewrite read_loop_value by assumption. unfold UtilsStream.bind.
      rewrite (for_lines_frame _ _ _ _ _ _ _ _ _ _ _ _ Hchunk (S r) sg).
      pose proof (for_lines_frame_state _ _ _ _ _ _ _ _ _ Hrun (S r) sg) as Hrest.
      destruct (IH _ _ _ _ _ _ Hsig Hrest) as [n Hloop].
      exists n. exact Hloop.
    + injection Hrun as <- <-.
      cbn [UtilsStream.values map]. fold (UtilsStream.values chunks).
      rewrite read_loop_value by assumption. unfold UtilsStream.bind.
      rewrite (for_lines_frame _ _ _ _ _ _ _ _ _ _ _ _ Hchunk (S r) sg).
      exists (S r). reflexivity.
Qed.

(** The promise and the calls of [stream] on a body of chunks, from the lines
    of the chunks. *)
Lemma stream_values_outcome (status : Z) (chunks : list string) (st1 : State)
    (c : UtilsStream.Completion unit) :
  for_lines (flat_map Str.split_lines chunks) started = (st1, c) ->
  UtilsStream.settled (stream (body_of status (UtilsStream.values chunks)))
  = Resolve match c with
            | Return r => r
            | _ => {| UtilsStream.fullText := UtilsStream.st_fullText st1;
                      UtilsStream.abort := UtilsStream.ControllerAbort |}
            end
  /\ UtilsStream.calls (stream (body_of status (UtilsStream.values chunks)))
     = match c with
       | Return _ => UtilsStream.st_calls st1
       | _ => (UtilsStream.st_calls st1
               ++ when onComplete (UtilsStream.OnComplete (UtilsStream.st_fullText st1)))%list
       end.
Proof.
  intros Hrun. destruct c as [[] | r | e].
  - rewrite (stream_exhausted _ _ _ _ _ status chunks st1 Hrun). now split.
  - rewrite started_state in Hrun.
    destruct (read_loop_values_return chunks _ _ _ _ _ _
                (requestSignal_fresh options) Hrun) as [n Hloop].
    assert (stream (body_of status (UtilsStream.values chunks))
            = UtilsStream.finish
                (mkState (UtilsStream.st_fullText st1) (UtilsStream.st_calls st1) n fresh)
                (Resolve r)) as ->.
    { unfold UtilsStream.stream. rewrite try_block_reading, started_state.
      unfold UtilsStream.bind at 1. now rewrite Hloop. }
    now split.
  - exfalso. rewrite started_state in Hrun.
    destruct (for_lines_effect JSON_parse ToBoolean ToString options callbacks
                (flat_map Str.split_lines chunks) ""
                (when (UtilsStream.onStart callbacks) UtilsStream.OnStart))
      as (text & evs & c' & Heff & Hthrow & _).
    rewrite Heff in Hrun. injection Hrun as _ ->. now destruct (Hthrow e).
Qed.

(** X11.  When no line of the body starts with [data: ], the call resolves
    with the non-blank lines of the chunks joined without any separator: the
    line feeds and the blank lines of a plain text body are lost. *)
Theorem plain_text_stream_drops_line_feeds (status : Z) (chunks : list string) :
  Forall (fun l => Str.startsWith "data: " l = false)
    (flat_map Str.split_lines chunks) ->
  UtilsStream.settled (stream (body_of status (UtilsStream.values chunks)))
  = Resolve {| UtilsStream.fullText :=
                 String.concat "" (StreamTrace.nonblank_lines chunks);
               UtilsStream.abort := UtilsStream.ControllerAbort |}
  /\ UtilsStream.reads (stream (body_of status (UtilsStream.values chunks)))
     = S (length chunks).
Proof.
  intros Hplain.
  destruct (for_lines_plain_text _ Hplain started) as [evs Hrun].
  rewrite (stream_exhausted _ _ _ _ _ status chunks _ Hrun).
  rewrite started_state. simpl_st. now split.
Qed.

(** X12.  The promise and the calls of [stream] depend on a body of chunks
    only through the sequence of its non-blank lines.  In particular a body
    cut at a line feed gives what the uncut body gives. *)
Theorem stream_depends_on_nonblank_lines :
  (forall status1 status2 chunks1 chunks2,
      StreamTrace.nonblank_lines chunks1 = StreamTrace.nonblank_lines chunks2 ->
      UtilsStream.settled (stream (body_of status1 (UtilsStream.values chunks1)))
      = UtilsStream.settled (stream (body_of status2 (UtilsStream.values chunks2)))
      /\ UtilsStream.calls (stream (body_of status1 (UtilsStream.values chunks1)))
         = UtilsStream.calls (stream (body_of status2 (UtilsStream.values chunks2))))
  /\ (forall status a b,
        UtilsStream.settled
          (stream (body_of status (UtilsStream.values [a ++ Str.newline; b])))
        = UtilsStream.settled
            (stream (body_of status (UtilsStream.values [a ++ Str.newline ++ b])))
        /\ UtilsStream.calls
             (stream (body_of status (UtilsStream.values [a ++ Str.newline; b])))
           = UtilsStream.calls
               (stream (body_of status (UtilsStream.values [a ++ Str.newline ++ b])))).
Proof.
  assert (forall status1 status2 chunks1 chunks2,
             StreamTrace.nonblank_lines chunks1 = StreamTrace.nonblank_lines chunks2 ->
             UtilsStream.settled (stream (body_of status1 (UtilsStream.values chunks1)))
             = UtilsStream.settled (stream (body_of status2 (UtilsStream.values chunks2)))
             /\ UtilsStream.calls (stream (body_of status1 (UtilsStream.values chunks1)))
                = UtilsStream.calls
                    (stream (body_of status2 (UtilsStream.values chunks2)))) as Hgeneral.
  { intros status1 status2 chunks1 chunks2 Hlines.
    destruct (for_lines (flat_map Str.split_lines chunks1) started) as [st1 c] eqn:Hrun1.
    assert (for_lines (flat_map Str.split_lines chunks2) started = (st1, c)) as Hrun2.
    { rewrite for_lines_nonblank. fold (StreamTrace.nonblank_lines chunks2).
      rewrite <- Hlines. unfold StreamTrace.nonblank_lines.
      now rewrite <- for_lines_nonblank. }
    destruct (stream_values_outcome status1 _ _ _ Hrun1) as [-> ->].
    destruct (stream_values_outcome status2 _ _ _ Hrun2) as [-> ->].
    now split. }
  split; [exact Hgeneral |].
  intros status a b. apply Hgeneral.
  unfold StreamTrace.nonblank_lines. cbn [flat_map].
  rewrite split_lines_at_line_feed.
  rewrite <- (append_empty (a ++ Str.newline)), append_assoc.
  rewrite split_lines_at_line_feed.
  assert (filter StreamTrace.nonblank (Str.split_lines "") = []) as Hblank
    by reflexivity.
  now rewrite !filter_app, Hblank, !app_nil_r.
Qed.

(** After the abort of [options.signal] the loop stops at its next read. *)
Lemma read_loop_aborted_exact (ticks : list UtilsStream.Tick) :
  UtilsStream.signal options = true ->
  forall (st : State) (reason : UtilsStream.Error),
    UtilsStream.external (UtilsStream.st_signals st) = Some reason ->
    read_loop ticks st
    = (mkState (UtilsStream.st_fullText st) (UtilsStream.st_calls st)
         (S (UtilsStream.st_reads st)) (UtilsStream.st_signals st),
       Throw reason).
Proof.
  intros Hsignal.
  induction ticks as [| [reason' | r] rest IH]; intros st reason Hext;
    cbn [UtilsStream.read_loop].
  - unfold_stream. simpl_st. unfold UtilsStream.requestSignal.
    now rewrite Hsignal, Hext.
  - unfold UtilsStream.bind, UtilsStream.abort_external. rewrite Hext.
    rewrite (IH _ reason) by (simpl_st; reflexivity). simpl_st.
    destruct st as [text0 calls0 n [ext ctl]]. simpl_st.
    cbn [UtilsStream.external UtilsStream.controller] in *. now subst.
  - unfold_stream. simpl_st. unfold UtilsStream.requestSignal.
    now rewrite Hsignal, Hext.
Qed.

(** X13.  A read that rejects ends the call at once: the promise rejects
    with that error, [onError] is the only call added to those made for the
    chunks read before, and nothing of the rest of the body is read.  The
    same holds, with the abort reason, from the moment the caller aborts the
    signal it passed as [options.signal]. *)
Theorem failed_read_ends_the_stream
    (status : Z) (before : list string) (rest : list UtilsStream.Tick) (st1 : State) :
  for_lines (flat_map Str.split_lines before) started = (st1, Normal tt) ->
  (forall e,
      stream (body_of status
                (UtilsStream.values before
                 ++ UtilsStream.Reads (UtilsStream.Rejects e) :: rest)%list)
      = UtilsStream.mkOutcome (Reject e)
          (UtilsStream.st_calls st1 ++ when onError (UtilsStream.OnError e))%list
          (S (length before)) fresh)
  /\ (UtilsStream.signal options = true ->
      forall reason,
        stream (body_of status
                  (UtilsStream.values before
                   ++ UtilsStream.CallerAborts reason :: rest)%list)
        = UtilsStream.mkOutcome (Reject reason)
            (UtilsStream.st_calls st1 ++ when onError (UtilsStream.OnError reason))%list
            (S (length before))
            {| UtilsStream.external := Some reason; UtilsStream.controller := None |}).
Proof.
  intros Hbefore. rewrite started_state in Hbefore. split.
  - intros e. unfold UtilsStream.stream. rewrite try_block_reading, started_state.
    unfold UtilsStream.bind at 1.
    rewrite (read_loop_values _ _ _ _ _ before _ _ _ _ _ _
               (requestSignal_fresh options) Hbefore).
    cbn [UtilsStream.read_loop]. unfold_stream. simpl_st.
    rewrite requestSignal_fresh. unfold UtilsStream.finish. rewrite Nat.add_0_r.
    destruct onError; simpl_st; [reflexivity | now rewrite app_nil_r].
  - intros Hsignal reason. unfold UtilsStream.stream.
    rewrite try_block_reading, started_state.
    unfold UtilsStream.bind at 1.
    rewrite (read_loop_values _ _ _ _ _ before _ _ _ _ _ _
               (requestSignal_fresh options) Hbefore).
    cbn [UtilsStream.read_loop].
    unfold UtilsStream.bind at 1. unfold UtilsStream.abort_external at 1.
    simpl_st. cbn [UtilsStream.external UtilsStream.controller].
    rewrite (read_loop_aborted_exact rest Hsignal _ reason) by reflexivity.
    simpl_st. unfold UtilsStream.call, UtilsStream.finish. rewrite Nat.add_0_r.
    destruct onError; simpl_st; [reflexivity | now rewrite app_nil_r].
Qed.

End StreamLineProperties.

(** X11, witness: the plain text [hello], [wor] | [ld], an empty line and
    [!]. *)
Lemma plain_text_stream_drops_line_feeds_witness :
  let out :=
    UtilsStream.stream JSON.parse JSON.ToBoolean JSON.ToString
      (UtilsStream.mkOptions false None) (UtilsStream.mkCallbacks true true true true)
      (UtilsStream.Fetched
         (UtilsStream.mkFetchResponse true 200
            (Some (UtilsStream.values
                     ["hello" ++ Str.newline ++ "wor";
                      "ld" ++ Str.newline ++ Str.newline ++ "!"])))) in
  UtilsStream.settled out
  = Resolve {| UtilsStream.fullText := "helloworld!";
               UtilsStream.abort := UtilsStream.ControllerAbort |}
  /\ UtilsStream.reads out = 3.
Proof.
  refine (plain_text_stream_drops_line_feeds JSON.parse JSON.ToBoolean JSON.ToString
            (UtilsStream.mkOptions false None)
            (UtilsStream.mkCallbacks true true true true) 200
            ["hello" ++ Str.newline ++ "wor"; "ld" ++ Str.newline ++ Str.newline ++ "!"]
            _).
  change (Forall (fun l => Str.startsWith "data: " l = false)
            ["hello"; "wor"; "ld"; ""; "!"]).
  repeat constructor.
Defined.

(** X12, witness: [ab], an empty line and [cd] in two chunks, and [ab], [cd]
    in one. *)
Lemma stream_depends_on_nonblank_lines_witness :
  let run :=
    UtilsStream.stream JSON.parse JSON.ToBoolean JSON.ToString
      (UtilsStream.mkOptions false None) (UtilsStream.mkCallbacks true true true true) in
  let two :=
    UtilsStream.Fetched
      (UtilsStream.mkFetchResponse true 200
         (Some (UtilsStream.values ["ab" ++ Str.newline ++ Str.newline; "cd"]))) in
  let one :=
    UtilsStream.Fetched
      (UtilsStream.mkFetchResponse true 200
         (Some (UtilsStream.values ["ab" ++ Str.newline ++ "cd" ++ Str.newline]))) in
  UtilsStream.settled (run two) = UtilsStream.settled (run one)
  /\ UtilsStream.calls (run two) = UtilsStream.calls (run one).
Proof.
  intros run two one.
  destruct (stream_depends_on_nonblank_lines JSON.parse JSON.ToBoolean JSON.ToString
              (UtilsStream.mkOptions false None)
              (UtilsStream.mkCallbacks true true true true)) as [Hlines _].
  exact (Hlines 200%Z 200%Z ["ab" ++ Str.newline ++ Str.newline; "cd"]
           ["ab" ++ Str.newline ++ "cd" ++ Str.newline] eq_refl).
Defined.

(** X13, witness: after the chunk [ab] the next read fails, or the caller
    aborts; the chunk [cd] is not read. *)
Lemma failed_read_ends_the_stream_witness :
  let run :=
    UtilsStream.stream JSON.parse JSON.ToBoolean JSON.ToString
      (UtilsStream.mkOptions true None) (UtilsStream.mkCallbacks true true true true) in
  let lost := UtilsStream.new_Error "network error" in
  run (UtilsStream.Fetched
         (UtilsStream.mkFetchResponse true 200
            (Some (UtilsStream.values [("ab" ++ Str.newline)%string]
                   ++ UtilsStream.Reads (UtilsStream.Rejects lost)
                   :: [UtilsStream.Reads (UtilsStream.Value "cd")])%list)))
  = UtilsStream.mkOutcome (Reject lost)
      [UtilsStream.OnStart;
       UtilsStream.OnMessage (UtilsStream.CStr "ab") "ab";
       UtilsStream.OnError lost]
      2 {| UtilsStream.external := None; UtilsStream.controller := None |}
  /\ run (UtilsStream.Fetched
            (UtilsStream.mkFetchResponse true 200
               (Some (UtilsStream.values [("ab" ++ Str.newline)%string]
                      ++ UtilsStream.CallerAborts UtilsStream.AbortError
                      :: [UtilsStream.Reads (UtilsStream.Value "cd")])%list)))
     = UtilsStream.mkOutcome (Reject UtilsStream.AbortError)
         [UtilsStream.OnStart;
          UtilsStream.OnMessage (UtilsStream.CStr "ab") "ab";
          UtilsStream.OnError UtilsStream.AbortError]
         2
         {| UtilsStream.external := Some UtilsStream.AbortError;
            UtilsStream.controller := None |}.
Proof.
  intros run lost.
  destruct (failed_read_ends_the_stream JSON.parse JSON.ToBoolean JSON.ToString
              (UtilsStream.mkOptions true None)
              (UtilsStream.mkCallbacks true true true true) 200
              ["ab" ++ Str.newline] [UtilsStream.Reads (UtilsStream.Value "cd")]
              (UtilsStream.mkState "ab"
                 [UtilsStream.OnStart; UtilsStream.OnMessage (UtilsStream.CStr "ab") "ab"]
                 0 {| UtilsStream.external := None; UtilsStream.controller := None |})
              eq_refl) as [Hread Habort].
  split.
  - exact (Hread lost).
  - exact (Habort eq_refl UtilsStream.AbortError).
Defined.

Lemma startsWith_data_without_space (payload : string) :
  Str.startsWith " " payload = false ->
  Str.startsWith "data: " ("data:" ++ payload) = false.
Proof.
  intros Hspace. unfold Str.startsWith in *. cbn -[String.prefix].
  repeat (cbn [String.prefix]; destruct (ascii_dec _ _) as [_ | Hne];
          [| now destruct Hne]).
  exact Hspace.
Qed.

(** X14.  The prefix of a data line is [data: ] with its space: a non-blank
    line that starts with [data:] followed by anything but a space is
    appended whole, prefix included, without being parsed; so [data:[DONE]]
    does not end the stream. *)
Theorem data_prefix_needs_its_space
    (JSValue : Type) (JSON_parse : string -> option JSValue)
    (ToBoolean : JSValue -> bool) (ToString : JSValue -> string)
    (options : UtilsStream.StreamRequestOptions JSValue)
    (callbacks : UtilsStream.StreamCallbacks)
    (payload : string) (st : UtilsStream.State JSValue) :
  Str.trim ("data:" ++ payload) <> "" ->
  Str.startsWith " " payload = false ->
  UtilsStream.process_line JSON_parse ToBoolean ToString options callbacks
    ("data:" ++ payload) st
  = (UtilsStream.mkState
       (UtilsStream.st_fullText st ++ "data:" ++ payload)
       (UtilsStream.st_calls st
        ++ (if UtilsStream.onMessage callbacks
            then [UtilsStream.OnMessage (UtilsStream.CStr ("data:" ++ payload))
                    (UtilsStream.st_fullText st ++ "data:" ++ payload)]
            else []))
       (UtilsStream.st_reads st) (UtilsStream.st_signals st),
     UtilsStream.Normal tt).
Proof.
  intros Hblank Hspace.
  apply process_line_plain; [exact Hblank |].
  now apply startsWith_data_without_space.
Qed.

(** X14, witness: the line [data:[DONE]]. *)
Lemma data_prefix_needs_its_space_witness :
  UtilsStream.process_line JSON.parse JSON.ToBoolean JSON.ToString
    (UtilsStream.mkOptions false None) (UtilsStream.mkCallbacks true true true true)
    "data:[DONE]" UtilsStream.initial
  = (UtilsStream.mkState "data:[DONE]"
       [UtilsStream.OnMessage (UtilsStream.CStr "data:[DONE]") "data:[DONE]"]
       0 {| UtilsStream.external := None; UtilsStream.controller := None |},
     UtilsStream.Normal tt).
Proof.
  refine (data_prefix_needs_its_space json JSON.parse JSON.ToBoolean JSON.ToString
            (UtilsStream.mkOptions false None)
            (UtilsStream.mkCallbacks true true true true)
            "[DONE]" UtilsStream.initial _ _); [| reflexivity].
  vm_compute. discriminate.
Defined.
